(** * openbankingbr: the fetch / cache / paginate / normalize pipeline

    A shallow embedding of [openbankingbr/utils.py] and of the parts of
    [openbankingbr/models.py] that decode products, services and packages,
    followed by the properties of the specification that concern them.

    Conventions of the embedding:
    - a JSON document is the tree Python's [json] module builds: [None],
      [bool], [int], [float], [str], [list] and [dict].  A [dict] is an
      association list in insertion order, looked up by first match;
    - a Python computation that may raise is a value of [outcome];
    - a generator is the list of the values it yields, paired with the
      exception that ended it, when one did;
    - what the interpreter and the operating system provide (floats, number
      parsing, [repr], ISO dates, the calendar, MD5, [os.path.join]) is a
      [Runtime]: every general theorem holds for every runtime. *)

From Stdlib Require Import ZArith String Ascii List Bool Lia.
From stdpp Require Import base option list gmap strings pretty.

Set Warnings "-register-all".
Local Open Scope string_scope.
Local Open Scope Z_scope.

(** ** Exceptions and outcomes *)

Module Py.

(** The exception classes that the modelled code can meet: Python's own,
    those of [requests.exceptions] and those of [openbankingbr/errors.py]. *)
Inductive exn : Type :=
  | KeyError
  | ValueError
  | TypeError
  | OverflowError
  | NotImplementedError
  | UnboundLocalError
  | UnicodeEncodeError
  | JSONDecodeError
  | FileNotFoundError
  | IsADirectoryError
  | InvalidURL
  | MissingSchema
  | InvalidSchema
  | ConnectionError
  | Timeout
  | OpenBankingException
  | InvalidDataException
  | RequiredFieldException.

(** [isinstance(e, ValueError)]: [UnicodeEncodeError] and [JSONDecodeError]
    derive from [ValueError], and so do the URL errors of [requests]. *)
Definition is_ValueError (e : exn) : bool :=
  match e with
  | ValueError | UnicodeEncodeError | JSONDecodeError
  | InvalidURL | MissingSchema | InvalidSchema => true
  | _ => false
  end.

Definition is_KeyError (e : exn) : bool :=
  match e with KeyError => true | _ => false end.

Definition is_InvalidURL (e : exn) : bool :=
  match e with InvalidURL => true | _ => false end.

Inductive outcome (A : Type) : Type :=
  | Return (a : A)
  | Raise (e : exn).
Arguments Return {A} a.
Arguments Raise {A} e.

Definition bind {A B} (m : outcome A) (f : A -> outcome B) : outcome B :=
  match m with
  | Return a => f a
  | Raise e => Raise e
  end.

Notation "'let*' x ':=' m 'in' k" := (bind m (fun x => k))
  (at level 10, x name, m at level 100, k at level 200).

(** ** Strings *)

(** [s.split(c)] for a one-character separator. *)
Fixpoint split_on (c : ascii) (s : string) : list string :=
  match s with
  | EmptyString => [EmptyString]
  | String a s' =>
      if Ascii.eqb a c then EmptyString :: split_on c s'
      else match split_on c s' with
           | [] => [String a EmptyString]
           | h :: t => String a h :: t
           end
  end.

(** [s.rstrip(c)] for a one-character set. *)
Fixpoint rstrip (c : ascii) (s : string) : string :=
  match s with
  | EmptyString => EmptyString
  | String a s' =>
      match rstrip c s' with
      | EmptyString => if Ascii.eqb a c then EmptyString else String a EmptyString
      | r => String a r
      end
  end.

(** [s.startswith(p)]. *)
Definition startswith (s p : string) : bool := String.prefix p s.

(** [needle in hay] on two strings. *)
Fixpoint contains (needle hay : string) : bool :=
  String.prefix needle hay
  || match hay with
     | EmptyString => false
     | String _ hay' => contains needle hay'
     end.

(** [sep.join(parts)]. *)
Fixpoint join (sep : string) (parts : list string) : string :=
  match parts with
  | [] => ""
  | [p] => p
  | p :: ps => p +:+ sep +:+ join sep ps
  end.

(** [s.encode('ascii')] succeeds when every character is below 128. *)
Definition is_ascii_char (a : ascii) : bool := (nat_of_ascii a <? 128)%nat.

Fixpoint encode_ascii (s : string) : outcome (list ascii) :=
  match s with
  | EmptyString => Return []
  | String a s' =>
      if is_ascii_char a then let* bs := encode_ascii s' in Return (a :: bs)
      else Raise UnicodeEncodeError
  end.

(** ** The runtime *)

(** The result of [int(f)] on a float. *)
Inductive trunc_result : Type :=
  | Truncated (z : Z)
  | TruncNaN
  | TruncInfinite.

Class Runtime : Type := {
  float : Type;
  datetime : Type;
  (** [float(b)], [float(z)] ([None]: [OverflowError]), [float(s)]
      ([None]: [ValueError]) *)
  float_of_bool : bool -> float;
  float_of_int : Z -> option float;
  float_of_str : string -> option float;
  (** [int(f)] and [int(s)] ([None]: [ValueError]) *)
  int_of_float : float -> trunc_result;
  int_of_str : string -> option Z;
  (** [bool(f)] *)
  float_truth : float -> bool;
  (** [repr(f)] and [repr(s)] *)
  repr_float : float -> string;
  repr_str : string -> string;
  (** [datetime.fromisoformat(s)] ([None]: [ValueError]) *)
  fromisoformat : string -> option datetime;
  (** the local calendar date of a timestamp, as a day number:
      [datetime.fromtimestamp(t).date()] *)
  local_date : Z -> Z;
  (** [md5(bytes).hexdigest()] and [os.path.join] *)
  md5_hexdigest : list ascii -> string;
  path_join : string -> string -> string
}.

End Py.
Export Py.

(** ** JSON documents *)

Section Json.
Context {R : Runtime}.

Inductive json : Type :=
  | JNull
  | JBool (b : bool)
  | JInt (z : Z)
  | JFloat (f : float)
  | JStr (s : string)
  | JList (l : list json)
  | JDict (d : list (string * json)).

(** What [get] hands back: a JSON value ([None] is [JNull]) or a datetime. *)
Inductive pyval : Type :=
  | PJson (j : json)
  | PDatetime (d : datetime).

Definition PNone : pyval := PJson JNull.

(** [d[k]] and [k in d] on the items of a dict. *)
Fixpoint dict_get (k : string) (d : list (string * json)) : option json :=
  match d with
  | [] => None
  | (k', v) :: d' => if String.eqb k k' then Some v else dict_get k d'
  end.

Definition dict_has (k : string) (d : list (string * json)) : bool :=
  match dict_get k d with Some _ => true | None => false end.

(** [d[k] = v]: replaces the value of an existing key in place, appends a
    new key. *)
Fixpoint dict_set (k : string) (v : json) (d : list (string * json))
  : list (string * json) :=
  match d with
  | [] => [(k, v)]
  | (k', v') :: d' =>
      if String.eqb k k' then (k, v) :: d' else (k', v') :: dict_set k v d'
  end.

(** [cur[k]] for a string [k]: only a dict can be subscripted by a string. *)
Definition subscript (cur : json) (k : string) : outcome json :=
  match cur with
  | JDict d => match dict_get k d with
               | Some v => Return v
               | None => Raise KeyError
               end
  | _ => Raise TypeError
  end.

(** [target[k] = v] for a string [k]. *)
Definition setitem (target : json) (k : string) (v : json) : outcome json :=
  match target with
  | JDict d => Return (JDict (dict_set k v d))
  | _ => Raise TypeError
  end.

(** [x == s] for a JSON value [x] and a string [s]. *)
Definition eq_str (x : json) (s : string) : bool :=
  match x with
  | JStr s' => String.eqb s' s
  | _ => false
  end.

(** [k in x] for a string [k]: key membership on a dict, element
    membership on a list, substring test on a string; other values are not
    iterable. *)
Definition py_in (k : string) (x : json) : outcome bool :=
  match x with
  | JDict d => Return (dict_has k d)
  | JList l => Return (existsb (fun e => eq_str e k) l)
  | JStr s => Return (contains k s)
  | _ => Raise TypeError
  end.

(** The elements a [for] loop draws from [x]. *)
Fixpoint chars (s : string) : list json :=
  match s with
  | EmptyString => []
  | String a s' => JStr (String a EmptyString) :: chars s'
  end.

Definition py_iter (x : json) : outcome (list json) :=
  match x with
  | JList l => Return l
  | JDict d => Return (map (fun kv => JStr (fst kv)) d)
  | JStr s => Return (chars s)
  | _ => Raise TypeError
  end.

Definition is_list (x : json) : bool :=
  match x with JList _ => true | _ => false end.

Definition is_dict (x : json) : bool :=
  match x with JDict _ => true | _ => false end.

Definition is_none (x : json) : bool :=
  match x with JNull => true | _ => false end.

(** [repr(x)] and [str(x)]. *)
Fixpoint py_repr (x : json) : string :=
  match x with
  | JNull => "None"
  | JBool true => "True"
  | JBool false => "False"
  | JInt z => pretty z
  | JFloat f => repr_float f
  | JStr s => repr_str s
  | JList l => "[" +:+ join ", " (map py_repr l) +:+ "]"
  | JDict d =>
      "{" +:+ join ", " (map (fun '(k, v) => repr_str k +:+ ": " +:+ py_repr v) d)
          +:+ "}"
  end.

Definition py_str (x : json) : string :=
  match x with
  | JStr s => s
  | _ => py_repr x
  end.

(** [int(x)], [float(x)] and [bool(x)]. *)
Definition py_int (x : json) : outcome Z :=
  match x with
  | JBool b => Return (if b then 1 else 0)
  | JInt z => Return z
  | JFloat f => match int_of_float f with
                | Truncated z => Return z
                | TruncNaN => Raise ValueError
                | TruncInfinite => Raise OverflowError
                end
  | JStr s => match int_of_str s with
              | Some z => Return z
              | None => Raise ValueError
              end
  | JNull | JList _ | JDict _ => Raise TypeError
  end.

Definition py_float (x : json) : outcome float :=
  match x with
  | JBool b => Return (float_of_bool b)
  | JInt z => match float_of_int z with
              | Some f => Return f
              | None => Raise OverflowError
              end
  | JFloat f => Return f
  | JStr s => match float_of_str s with
              | Some f => Return f
              | None => Raise ValueError
              end
  | JNull | JList _ | JDict _ => Raise TypeError
  end.

Definition py_bool (x : json) : bool :=
  match x with
  | JNull => false
  | JBool b => b
  | JInt z => negb (z =? 0)
  | JFloat f => float_truth f
  | JStr s => negb (String.eqb s "")
  | JList l => match l with [] => false | _ => true end
  | JDict d => match d with [] => false | _ => true end
  end.

(** [datetime.fromisoformat(x)]: the argument must be a [str]. *)
Definition py_fromisoformat (x : json) : outcome datetime :=
  match x with
  | JStr s => match fromisoformat s with
              | Some d => Return d
              | None => Raise ValueError
              end
  | _ => Raise TypeError
  end.

End Json.

(** ** utils.py: the field accessor *)

Section FieldAccessor.
Context {R : Runtime}.

(** The [valueType] argument of [get]; [TOther] stands for any type the
    function does not know. *)
Inductive value_type : Type :=
  | TNone
  | TList
  | TDict
  | TInt
  | TStr
  | TFloat
  | TBool
  | TDate
  | TDatetime
  | TOther.

(** What the loop [for k in keys] of [get] leaves. *)
Inductive walked : Type :=
  | Reached (cur : json)
  | ReturnedNone.

(** [for k in keys: cur = cur[k]; if cur is None: return None]. *)
Fixpoint walk (cur : json) (keys : list string) : outcome walked :=
  match keys with
  | [] => Return (Reached cur)
  | k :: keys' =>
      match subscript cur k with
      | Raise e => Raise e
      | Return JNull => Return ReturnedNone
      | Return cur' => walk cur' keys'
      end
  end.

(** The chain [if valueType == None ... else raise NotImplementedError]. *)
Definition coerce (valueType : value_type) (cur : json) : outcome pyval :=
  match valueType with
  | TNone => Return (PJson cur)
  | TList => if is_list cur then Return (PJson cur) else Raise ValueError
  | TDict => if is_dict cur then Return (PJson cur) else Raise ValueError
  | TInt => let* z := py_int cur in Return (PJson (JInt z))
  | TStr => Return (PJson (JStr (py_str cur)))
  | TFloat => let* f := py_float cur in Return (PJson (JFloat f))
  | TBool => Return (PJson (JBool (py_bool cur)))
  | TDate => let* d := py_fromisoformat cur in Return (PDatetime d)
  | TDatetime =>
      let cur' := match cur with
                  | JStr s => JStr (rstrip "Z" s)
                  | _ => cur
                  end in
      let* d := py_fromisoformat cur' in Return (PDatetime d)
  | TOther => Raise NotImplementedError
  end.

(** The body of the [try] statement of [get]. *)
Definition get_try (d : json) (key : string) (valueType : value_type)
  : outcome pyval :=
  match walk d (split_on "." key) with
  | Raise e => Raise e
  | Return ReturnedNone => Return PNone
  | Return (Reached cur) => coerce valueType cur
  end.

(** [get(d, key, required, valueType)]: the three [except] clauses in
    their order, then the final [return None]. *)
Definition get (d : json) (key : string) (required : bool)
    (valueType : value_type) : outcome pyval :=
  match get_try d key valueType with
  | Return v => Return v
  | Raise e =>
      if is_ValueError e then
        if required then Raise RequiredFieldException else Return PNone
      else if is_KeyError e then
        if required then Raise RequiredFieldException else Return PNone
      else
        if required then Raise e else Return PNone
  end.

End FieldAccessor.

(** ** utils.py: the cache store and the HTTP fetcher *)

Section Fetcher.
Context {R : Runtime}.

(** A path of the file system holds a directory or a regular file.  A
    cache file holds the document that [json.dump] wrote and [json.load]
    reads back, or bytes that are no JSON document ([None]). *)
Inductive file_kind : Type :=
  | Directory
  | RegularFile (content : option json).

Record node : Type := {
  kind : file_kind;
  st_ctime : Z;
  st_birthtime : option Z;
  st_mtime : Z
}.

(** What [requests.get(url)] does: it raises, or it returns a response
    with a status code and a body; the body is the value [res.json()]
    parses, [None] when it is not JSON. *)
Inductive reply : Type :=
  | Fails (e : exn)
  | Responds (status_code : Z) (body : option json).

(** The world a call runs in: the file system, the clock, the platform,
    the remote servers, and the URLs [requests.get] was called with. *)
Record world : Type := {
  fs : gmap string node;
  now : Z;
  windows : bool;
  birthtime_supported : bool;
  network : string -> reply;
  requested : list string
}.

Definition with_fs (w : world) (m : gmap string node) : world :=
  {| fs := m; now := now w; windows := windows w;
     birthtime_supported := birthtime_supported w;
     network := network w; requested := requested w |}.

Definition with_request (w : world) (url : string) : world :=
  {| fs := fs w; now := now w; windows := windows w;
     birthtime_supported := birthtime_supported w;
     network := network w; requested := (requested w ++ [url])%list |}.

Definition is_directory (n : node) : bool :=
  match kind n with Directory => true | RegularFile _ => false end.

(** The timestamp [file_was_created_today] reads: [os.path.getctime] on
    Windows, otherwise [st_birthtime] and, where the platform has none,
    [st_mtime]. *)
Definition creation_time (w : world) (n : node) : Z :=
  if windows w then st_ctime n
  else match st_birthtime n with
       | Some t => t
       | None => st_mtime n
       end.

Definition file_was_created_today (w : world) (file : string) : bool :=
  match fs w !! file with
  | None => false
  | Some n => local_date (creation_time w n) =? local_date (now w)
  end.

Definition new_node (w : world) (k : file_kind) : node :=
  {| kind := k; st_ctime := now w;
     st_birthtime := if birthtime_supported w then Some (now w) else None;
     st_mtime := now w |}.

(** [os.makedirs(dir)] on a path that does not exist. *)
Definition makedirs (w : world) (dir : string) : world * outcome unit :=
  if String.eqb dir "" then (w, Raise FileNotFoundError)
  else (with_fs w (<[dir := new_node w Directory]> (fs w)), Return tt).

(** [os.remove(path)] on a path that exists. *)
Definition remove (w : world) (path : string) (n : node) : world * outcome unit :=
  if is_directory n then (w, Raise IsADirectoryError)
  else (with_fs w (delete path (fs w)), Return tt).

(** [with open(path, 'r') as f: return json.load(f)]. *)
Definition read_json (w : world) (path : string) : outcome json :=
  match fs w !! path with
  | None => Raise FileNotFoundError
  | Some n =>
      match kind n with
      | Directory => Raise IsADirectoryError
      | RegularFile (Some doc) => Return doc
      | RegularFile None => Raise JSONDecodeError
      end
  end.

(** [with open(path, 'w') as f: json.dump(data, f)]. *)
Definition write_json (w : world) (path : string) (data : json)
  : world * outcome unit :=
  match fs w !! path with
  | None =>
      (with_fs w (<[path := new_node w (RegularFile (Some data))]> (fs w)),
       Return tt)
  | Some n =>
      if is_directory n then (w, Raise IsADirectoryError)
      else
        (with_fs w
           (<[path := {| kind := RegularFile (Some data);
                         st_ctime := if windows w then st_ctime n else now w;
                         st_birthtime := st_birthtime n;
                         st_mtime := now w |}]> (fs w)),
         Return tt)
  end.

(** The first part of [fetchUrl], up to the [try]: either the cached
    document is returned, or control reaches the [try] with the local
    variable [cacheEntry] bound ([Some]) or never assigned ([None]). *)
Inductive cache_step : Type :=
  | Served (doc : json)
  | Missed (cacheEntry : option string).

Definition cache_entry_path (dir : string) (bytes : list ascii) : string :=
  path_join dir (md5_hexdigest bytes +:+ ".json").

Definition cache_lookup (w : world) (url : string) (cacheDir : option string)
  : world * outcome cache_step :=
  match cacheDir with
  | None => (w, Return (Missed None))
  | Some dir =>
      let prepared :=
        match fs w !! dir with
        | None => makedirs w dir
        | Some n =>
            if is_directory n then (w, Return tt)
            else (w, Raise OpenBankingException)
        end in
      match prepared with
      | (w1, Raise e) => (w1, Raise e)
      | (w1, Return _) =>
          match encode_ascii url with
          | Raise e => (w1, Raise e)
          | Return bytes =>
              let cacheEntry := cache_entry_path dir bytes in
              if file_was_created_today w1 cacheEntry then
                match read_json w1 cacheEntry with
                | Return doc => (w1, Return (Served doc))
                | Raise e => (w1, Raise e)
                end
              else
                match fs w1 !! cacheEntry with
                | Some n =>
                    match remove w1 cacheEntry n with
                    | (w2, Raise e) => (w2, Raise e)
                    | (w2, Return _) => (w2, Return (Missed (Some cacheEntry)))
                    end
                | None => (w1, Return (Missed (Some cacheEntry)))
                end
          end
      end
  end.

(** The body of the [try] statement of [fetchUrl]. *)
Definition fetch_try (w : world) (url : string) (cacheEntry : option string)
  : world * outcome json :=
  let w1 := with_request w url in
  match network w url with
  | Fails e => (w1, Raise e)
  | Responds _ None => (w1, Raise JSONDecodeError)
  | Responds _ (Some data) =>
      if is_none data then (w1, Return data)
      else
        match cacheEntry with
        | None => (w1, Raise UnboundLocalError)
        | Some path =>
            match write_json w1 path data with
            | (w2, Raise e) => (w2, Raise e)
            | (w2, Return _) => (w2, Return data)
            end
        end
  end.

(** [fetchUrl(url, cacheDir)]: [except InvalidURL], [except ValueError] and
    the bare [except] in their order. *)
Definition fetchUrl (w : world) (url : string) (cacheDir : option string)
  : world * outcome json :=
  match cache_lookup w url cacheDir with
  | (w1, Raise e) => (w1, Raise e)
  | (w1, Return (Served doc)) => (w1, Return doc)
  | (w1, Return (Missed cacheEntry)) =>
      match fetch_try w1 url cacheEntry with
      | (w2, Return data) => (w2, Return data)
      | (w2, Raise e) =>
          if is_InvalidURL e then (w2, Return JNull)
          else if is_ValueError e then (w2, Raise OpenBankingException)
          else (w2, Return JNull)
      end
  end.

(** ** utils.py: the pagination walker *)

(** What [fetchUrlPages] yields: a page payload, or a generator object,
    which is the suspended call [fetchUrlPages(url, cacheDir)]. *)
Inductive page_item : Type :=
  | PageData (data : json)
  | PageGenerator (url : string) (cacheDir : option string).

(** [fetchUrlPages(url, cacheDir)], run to its end: the values yielded, in
    order, and the exception that ended the generator, if any.  [get] with
    [valueType=str] returns a [str] or [None]. *)
Definition fetchUrlPages (w : world) (url : string) (cacheDir : option string)
  : world * (list page_item * option exn) :=
  match fetchUrl w url cacheDir with
  | (w1, Raise e) => (w1, ([], Some e))
  | (w1, Return (JDict items)) =>
      match dict_get "data" items with
      | None => (w1, ([], None))
      | Some data =>
          match setitem data "endPoint" (JStr url) with
          | Raise e => (w1, ([], Some e))
          | Return data' =>
              let root := JDict (dict_set "data" data' items) in
              match get root "links.next" false TStr with
              | Raise e => (w1, ([PageData data'], Some e))
              | Return (PJson (JStr nextPage)) =>
                  if startswith nextPage "http://"
                     || startswith nextPage "https://"
                  then (w1, ([PageData data'; PageGenerator nextPage cacheDir],
                             None))
                  else (w1, ([PageData data'], None))
              | Return _ => (w1, ([PageData data'], None))
              end
          end
      end
  | (w1, Return _) => (w1, ([], None))
  end.

End Fetcher.

(** ** models.py: services, packages and products *)

Section Models.
Context {R : Runtime}.

(** [DataObject.__init__]: the data must be a dict. *)
Definition DataObject_init (dados : json) : outcome json :=
  if is_dict dados then Return dados else Raise InvalidDataException.

(** The two four-slot lists [_taxa] and [_clientes]. *)
Record Faixas : Type := {
  taxa : list pyval;
  clientes : list pyval
}.

Definition no_faixas : Faixas :=
  {| taxa := replicate 4 PNone; clientes := replicate 4 PNone |}.

(** The slot selected by the chain
    [if x == '1_FAIXA' ... elif x == '4_FAIXA']. *)
Definition faixa_index (interval : json) : option nat :=
  if eq_str interval "1_FAIXA" then Some 0%nat
  else if eq_str interval "2_FAIXA" then Some 1%nat
  else if eq_str interval "3_FAIXA" then Some 2%nat
  else if eq_str interval "4_FAIXA" then Some 3%nat
  else None.

(** One iteration of the decoding loop, which [Servico], [Pacote] and
    [Produto] each spell out; [ratePath] is ['value'] for the first two and
    ['indexer.rate'] for the third. *)
Definition faixa_step (ratePath : string) (f : Faixas) (entry : json)
  : outcome Faixas :=
  let* interval := subscript entry "interval" in
  match faixa_index interval with
  | None => Return f
  | Some i =>
      let* t := get entry ratePath false TFloat in
      let* c := get entry "customers.rate" false TFloat in
      Return {| taxa := <[i := t]> (taxa f);
                clientes := <[i := c]> (clientes f) |}
  end.

Fixpoint decode_faixas (ratePath : string) (f : Faixas) (entries : list json)
  : outcome Faixas :=
  match entries with
  | [] => Return f
  | entry :: rest =>
      let* f' := faixa_step ratePath f entry in
      decode_faixas ratePath f' rest
  end.

(** [if get(dados, 'prices', valueType=list) != None:
       for price in dados['prices']: ...] *)
Definition decode_prices (dados : json) : outcome Faixas :=
  let* found := get dados "prices" false TList in
  match found with
  | PJson JNull => Return no_faixas
  | _ =>
      let* prices := subscript dados "prices" in
      let* entries := py_iter prices in
      decode_faixas "value" no_faixas entries
  end.

Record Servico : Type := {
  servico_dados : json;
  servico_faixas : Faixas
}.

(** [Servico.__init__]. *)
Definition Servico_init (dados : json) : outcome Servico :=
  let* _ := DataObject_init dados in
  let* f := decode_prices dados in
  Return {| servico_dados := dados; servico_faixas := f |}.

Record Pacote : Type := {
  pacote_dados : json;
  pacote_faixas : Faixas
}.

(** [Pacote.__init__]. *)
Definition Pacote_init (dados : json) : outcome Pacote :=
  let* _ := DataObject_init dados in
  let* f := decode_prices dados in
  Return {| pacote_dados := dados; pacote_faixas := f |}.

(** The properties [faixaNTaxa] and [faixaNClientes], [N] from 1 to 4,
    read slot [N - 1]. *)
Definition faixaTaxa (f : Faixas) (n : nat) : option pyval := taxa f !! pred n.
Definition faixaClientes (f : Faixas) (n : nat) : option pyval :=
  clientes f !! pred n.

Record Produto : Type := {
  produto_key : string;
  produto_dados : json;
  produto_faixas : Faixas;
  jurosRate : pyval;
  jutosTipo : pyval;
  minimumRate : pyval;
  maximumRate : pyval
}.

(** [Produto.__init__(participante, key, data, interestRate)]; the default
    [interestRate=None] is [JNull]. *)
Definition Produto_init (key : string) (data interestRate : json)
  : outcome Produto :=
  let* _ := DataObject_init data in
  if is_none interestRate then
    Return {| produto_key := key; produto_dados := data;
              produto_faixas := no_faixas; jurosRate := PNone;
              jutosTipo := PNone; minimumRate := PNone;
              maximumRate := PNone |}
  else
    let* rate := get interestRate "rate" false TFloat in
    let* tipo := get interestRate "referentialRateIndexer" false TStr in
    let tipo' := match tipo with
                 | PJson v => if eq_str v "NA" then PNone else tipo
                 | _ => tipo
                 end in
    let* has_apps := py_in "applications" interestRate in
    let* f := (if has_apps then
                 let* apps := subscript interestRate "applications" in
                 let* entries := py_iter apps in
                 decode_faixas "indexer.rate" no_faixas entries
               else Return no_faixas) in
    let* lo := get interestRate "minimumRate" false TFloat in
    let* hi := get interestRate "maximumRate" false TFloat in
    Return {| produto_key := key; produto_dados := data;
              produto_faixas := f; jurosRate := rate;
              jutosTipo := tipo'; minimumRate := lo;
              maximumRate := hi |}.

(** The property [Produto.jurosSeq]. *)
Definition jurosSeq_of (dados : json) : outcome pyval :=
  let* seq := get dados "interestSequence" false TInt in
  match seq with
  | PJson JNull => Return (PJson (JInt 1))
  | _ => Return seq
  end.

Definition jurosSeq (p : Produto) : outcome pyval :=
  jurosSeq_of (produto_dados p).

(** ** models.py: [Participante.produtos] *)

Definition product_keys : list string :=
  [ "personalAccounts"; "businessAccounts";
    "personalCreditCards"; "businessCreditCards";
    "personalLoans"; "businessLoans";
    "personalFinancings"; "businessFinancings";
    "personalInvoiceFinancings"; "businessInvoiceFinancings";
    "personalUnarrangedAccountOverdraft";
    "businessUnarrangedAccountOverdraft" ].

(** [for k in keys: if not k in company: continue; key = k; break],
    started with the current value of the variable [key]. *)
Fixpoint scan_keys (keys : list string) (company : json) (key : option string)
  : outcome (option string) :=
  match keys with
  | [] => Return key
  | k :: keys' =>
      let* present := py_in k company in
      if present then Return (Some k) else scan_keys keys' company key
  end.

(** [k in x and type(x[k]) == list], with the list when the test holds. *)
Definition list_field (x : json) (k : string) : outcome (option (list json)) :=
  let* present := py_in k x in
  if present then
    let* v := subscript x k in
    match v with
    | JList l => Return (Some l)
    | _ => Return None
    end
  else Return None.

(** [k in x and type(x[k]) == dict], with the dict when the test holds. *)
Definition dict_field (x : json) (k : string) : outcome (option json) :=
  let* present := py_in k x in
  if present then
    let* v := subscript x k in
    if is_dict v then Return (Some v) else Return None
  else Return None.

(** Where the list of rate entries sits in the item. *)
Inductive rates_place : Type :=
  | AtInterestRates
  | AtInterestDotRates.

Definition replace_list_entry (x : json) (k : string) (i : nat) (v : json)
  : json :=
  match x with
  | JDict d =>
      match dict_get k d with
      | Some (JList l) => JDict (dict_set k (JList (<[i := v]> l)) d)
      | _ => x
      end
  | _ => x
  end.

(** The rate entries are dicts inside the item: assigning a key of the
    [i]-th entry changes the item in place. *)
Definition store_rate (place : rates_place) (item : json) (i : nat)
    (rate : json) : json :=
  match place with
  | AtInterestRates => replace_list_entry item "interestRates" i rate
  | AtInterestDotRates =>
      match item with
      | JDict d =>
          match dict_get "interest" d with
          | Some interest =>
              JDict (dict_set "interest"
                       (replace_list_entry interest "rates" i rate) d)
          | None => item
          end
      | _ => item
      end
  end.

(** A generator of products run to its end: the products yielded, the
    item as the loop left it, and the exception that ended the generator,
    if any.  [produto_dados] of a product is the item when the product
    was yielded. *)
Definition item_run : Type := list Produto * json * option exn.

(** [for interestRate in rates: interestSequence += 1;
       interestRate['interestSequence'] = interestSequence;
       yield Produto(self, key, item, interestRate)]. *)
Fixpoint rates_loop (key : string) (place : rates_place) (item : json)
    (i : nat) (interestSequence : Z) (rates : list json) : item_run :=
  match rates with
  | [] => ([], item, None)
  | interestRate :: rest =>
      let interestSequence' := interestSequence + 1 in
      match setitem interestRate "interestSequence" (JInt interestSequence') with
      | Raise e => ([], item, Some e)
      | Return rate' =>
          let item' := store_rate place item i rate' in
          match Produto_init key item' rate' with
          | Raise e => ([], item', Some e)
          | Return p =>
              match rates_loop key place item' (S i) interestSequence' rest with
              | (ps, item'', r) => (p :: ps, item'', r)
              end
          end
      end
  end.

(** The body of [for item in company[key]]. *)
Definition produtos_item (key : string) (page item : json) : item_run :=
  match subscript page "endPoint" with
  | Raise e => ([], item, Some e)
  | Return endPoint =>
      match setitem item "endPoint" endPoint with
      | Raise e => ([], item, Some e)
      | Return item1 =>
          match list_field item1 "interestRates" with
          | Raise e => ([], item1, Some e)
          | Return (Some rates) =>
              rates_loop key AtInterestRates item1 0 0 rates
          | Return None =>
              match dict_field item1 "interest" with
              | Raise e => ([], item1, Some e)
              | Return (Some interest) =>
                  match list_field interest "rates" with
                  | Raise e => ([], item1, Some e)
                  | Return (Some rates) =>
                      rates_loop key AtInterestDotRates item1 0 0 rates
                  | Return None => ([], item1, None)
                  end
              | Return None =>
                  match Produto_init key item1 JNull with
                  | Raise e => ([], item1, Some e)
                  | Return p => ([p], item1, None)
                  end
              end
          end
      end
  end.

(** A generator of products: what it yields and how it ends. *)
Definition run : Type := list Produto * option exn.

Fixpoint items_loop (key : string) (page : json) (items : list json) : run :=
  match items with
  | [] => ([], None)
  | item :: rest =>
      match produtos_item key page item with
      | (ps, _, Some e) => (ps, Some e)
      | (ps, _, None) =>
          match items_loop key page rest with
          | (qs, r) => ((ps ++ qs)%list, r)
          end
      end
  end.

(** [for company in brand['companies']], entered with the current value
    of the variable [key], which the loop never resets. *)
Fixpoint companies_loop (page : json) (key : option string)
    (companies : list json) : run :=
  match companies with
  | [] => ([], None)
  | company :: rest =>
      match scan_keys product_keys company key with
      | Raise e => ([], Some e)
      | Return None => companies_loop page None rest
      | Return (Some k) =>
          match subscript company k with
          | Raise e => ([], Some e)
          | Return (JList items) =>
              match items_loop k page items with
              | (ps, Some e) => (ps, Some e)
              | (ps, None) =>
                  match companies_loop page (Some k) rest with
                  | (qs, r) => ((ps ++ qs)%list, r)
                  end
              end
          | Return _ => companies_loop page (Some k) rest
          end
      end
  end.

(** The body of [for page in fetchUrlPages(...)] of
    [Participante.produtos], for a page that is a JSON value. *)
Definition produtos_page (page : json) : run :=
  match py_in "brand" page with
  | Raise e => ([], Some e)
  | Return false => ([], None)
  | Return true =>
      match subscript page "brand" with
      | Raise e => ([], Some e)
      | Return brand =>
          match py_in "companies" brand with
          | Raise e => ([], Some e)
          | Return false => ([], None)
          | Return true =>
              match (let* cs := subscript brand "companies" in py_iter cs) with
              | Raise e => ([], Some e)
              | Return companies => companies_loop page None companies
              end
          end
      end
  end.

End Models.

(** ** A runtime to run examples

    Floats are exact decimals [m / 10^p] (no NaN, no infinity, no
    rounding); numbers are parsed from plain decimal text; a datetime is the
    text [fromisoformat] accepted; the calendar is UTC; paths are joined as
    on POSIX.  The digest is the hexadecimal text of the bytes: it only
    names the cache file. *)

Module Example.

Definition digit_of (a : ascii) : option Z :=
  let n := nat_of_ascii a in
  if ((48 <=? n) && (n <=? 57))%nat then Some (Z.of_nat (n - 48)) else None.

Fixpoint parse_digits (s : string) (acc : Z) : option Z :=
  match s with
  | EmptyString => Some acc
  | String a s' =>
      match digit_of a with
      | Some d => parse_digits s' (10 * acc + d)
      | None => None
      end
  end.

Definition parse_natural (s : string) : option Z :=
  match s with
  | EmptyString => None
  | _ => parse_digits s 0
  end.

Definition parse_int (s : string) : option Z :=
  match s with
  | String "-" s' => Z.opp <$> parse_natural s'
  | _ => parse_natural s
  end.

Definition parse_decimal (s : string) : option (Z * nat) :=
  let '(sign, body) := match s with
                       | String "-" s' => (-1, s')
                       | _ => (1, s)
                       end in
  match split_on "." body with
  | [whole] => (fun m => (sign * m, 0%nat)) <$> parse_natural whole
  | [whole; frac] =>
      match parse_natural whole, parse_natural frac with
      | Some m, Some n =>
          Some (sign * (m * 10 ^ Z.of_nat (String.length frac) + n),
                String.length frac)
      | _, _ => None
      end
  | _ => None
  end.

Fixpoint zeros (n : nat) : string :=
  match n with
  | O => ""
  | S n' => String "0" (zeros n')
  end.

(** The decimal text of [m / 10^p], with at least one fractional digit. *)
Definition repr_decimal (f : Z * nat) : string :=
  let '(m, p) := f in
  let scale := 10 ^ Z.of_nat p in
  let whole := pretty (Z.abs m / scale) in
  let frac := pretty (Z.abs m mod scale) in
  (if m <? 0 then "-" else "") +:+ whole +:+ "." +:+
  (if (p =? 0)%nat then "0"
   else zeros (p - String.length frac) +:+ frac).

Definition hex_digit (n : nat) : ascii :=
  ascii_of_nat (if (n <? 10)%nat then 48 + n else 87 + n).

Fixpoint hex_of_bytes (bs : list ascii) : string :=
  match bs with
  | [] => ""
  | b :: bs' =>
      let n := nat_of_ascii b in
      String (hex_digit (n / 16)) (String (hex_digit (n mod 16)) (hex_of_bytes bs'))
  end.

Fixpoint ends_with_slash (s : string) : bool :=
  match s with
  | EmptyString => false
  | String a EmptyString => Ascii.eqb a "/"
  | String _ s' => ends_with_slash s'
  end.

Definition posix_join (a b : string) : string :=
  if startswith b "/" then b
  else if String.eqb a "" || ends_with_slash a then a +:+ b
  else a +:+ "/" +:+ b.

Definition looks_like_iso_date (s : string) : bool :=
  match String.get 4 s, String.get 7 s, String.get 9 s with
  | Some a, Some b, Some _ => Ascii.eqb a "-" && Ascii.eqb b "-"
  | _, _, _ => false
  end.

Definition runtime : Runtime := {|
  float := Z * nat;
  datetime := string;
  float_of_bool := fun b => (if b then 1 else 0, 0%nat);
  float_of_int := fun z => Some (z, 0%nat);
  float_of_str := parse_decimal;
  int_of_float := fun f => Truncated (Z.quot (fst f) (10 ^ Z.of_nat (snd f)));
  int_of_str := parse_int;
  float_truth := fun f => negb (fst f =? 0);
  repr_float := repr_decimal;
  repr_str := fun s => "'" +:+ s +:+ "'";
  fromisoformat := fun s => if looks_like_iso_date s then Some s else None;
  local_date := fun t => t / 86400;
  md5_hexdigest := hex_of_bytes;
  path_join := posix_join
|}.

End Example.

Section Examples.
#[local] Existing Instance Example.runtime.

(** A products server with two pages, the first linking to the second. *)
Definition page1_url : string := "https://bank.example/open-banking/products-services/v1/personal-loans".
Definition page2_url : string := "https://bank.example/open-banking/products-services/v1/personal-loans?page=2".

Definition page1_root : json :=
  JDict [ ("data", JDict [("brand", JDict [("name", JStr "Bank")])]);
          ("links", JDict [("self", JStr page1_url); ("next", JStr page2_url)]) ].

Definition page2_root : json :=
  JDict [ ("data", JDict [("brand", JDict [("name", JStr "Bank")])]);
          ("links", JDict [("self", JStr page2_url)]) ].

Definition bank_network (url : string) : reply :=
  if String.eqb url page1_url then Responds 200 (Some page1_root)
  else if String.eqb url page2_url then Responds 200 (Some page2_root)
  else if String.eqb url "https://bank.example/gone" then Responds 404 None
  else if String.eqb url "https://bank.example/slow" then Fails Timeout
  else if String.eqb url "http://" then Fails InvalidURL
  else Fails ConnectionError.

(** Noon of day 20000, on a platform without [st_birthtime], nothing on
    disk and nothing requested yet. *)
Definition noon : Z := 20000 * 86400 + 43200.

Definition fresh_world : world :=
  {| fs := ∅; now := noon; windows := false; birthtime_supported := false;
     network := bank_network; requested := [] |}.

(** The name of the cache file of the first page under [cache]. *)
Definition page1_bytes : list ascii :=
  match encode_ascii page1_url with
  | Return bytes => bytes
  | Raise _ => []
  end.

Definition page1_cache_path : string := cache_entry_path "cache" page1_bytes.

Definition node_at (t : Z) (k : file_kind) : node :=
  {| kind := k; st_ctime := t; st_birthtime := None; st_mtime := t |}.

(** At noon, a cache that holds the first page, written at time [t]. *)
Definition cached_world (t : Z) : world :=
  {| fs := <["cache" := node_at t Directory]>
             (<[page1_cache_path := node_at t (RegularFile (Some page1_root))]> ∅);
     now := noon; windows := false; birthtime_supported := false;
     network := bank_network; requested := [] |}.

(** A service with a price labelled for the third interval and one with
    a label that is none of the four. *)
Definition saque_prices : list json :=
  [ JDict [("interval", JStr "3_FAIXA"); ("value", JStr "10.50");
           ("customers", JDict [("rate", JStr "0.30")])];
    JDict [("interval", JStr "5_FAIXA"); ("value", JStr "99.00");
           ("customers", JDict [("rate", JStr "0.01")])] ].

Definition saque : list (string * json) :=
  [("name", JStr "Saque"); ("code", JStr "SAQUE_TERMINAL");
   ("prices", JList saque_prices)].

(** Products pages. *)
Definition products_page (companies : list json) : json :=
  JDict [("brand", JDict [("name", JStr "Bank"); ("companies", JList companies)]);
         ("endPoint", JStr page1_url)].

(** A loan with two interest-rate entries. *)
Definition loan_two_rates : json :=
  JDict [("type", JStr "EMPRESTIMO_CREDITO_PESSOAL_CONSIGNADO");
         ("interestRates",
          JList [ JDict [("referentialRateIndexer", JStr "PRE_FIXADO");
                         ("rate", JStr "0.01")];
                  JDict [("referentialRateIndexer", JStr "POS_FIXADO_CDI");
                         ("rate", JStr "0.02")] ])].

(** A loan whose [interest] is a dict without a [rates] list. *)
Definition loan_interest_without_rates : json :=
  JDict [("type", JStr "EMPRESTIMO_CREDITO_PESSOAL_CONSIGNADO");
         ("interest", JDict [("minimumRate", JStr "0.01")])].

(** A loan without any interest field. *)
Definition loan_plain : json :=
  JDict [("type", JStr "EMPRESTIMO_HOME_EQUITY")].

(** A page of three companies: the second has none of the twelve keys. *)
Definition three_companies : json :=
  products_page
    [ JDict [("name", JStr "A"); ("personalLoans", JList [loan_plain])];
      JDict [("name", JStr "B")];
      JDict [("name", JStr "C"); ("businessLoans", JList [loan_plain])] ].

(** One company offering the loan with two interest-rate entries, and one
    offering the loan whose [interest] has no [rates]. *)
Definition page_two_rates : json :=
  products_page [JDict [("personalLoans", JList [loan_two_rates])]].

Definition page_interest_without_rates : json :=
  products_page [JDict [("personalLoans", JList [loan_interest_without_rates])]].

End Examples.

(** ** Vocabulary of the properties *)

Section Vocabulary.
Context {R : Runtime}.

(** The value a document holds at a path of keys, each step of which goes
    through a dict. *)
Fixpoint value_at (d : json) (keys : list string) : option json :=
  match keys with
  | [] => Some d
  | k :: keys' =>
      match d with
      | JDict items =>
          match dict_get k items with
          | Some v => value_at v keys'
          | None => None
          end
      | _ => None
      end
  end.

(** Some key of the path is missing: the keys before it lead to a dict
    that does not have it. *)
Definition missing_key (d : json) (keys : list string) : Prop :=
  exists pre k post items,
    keys = (pre ++ k :: post)%list /\
    value_at d pre = Some (JDict items) /\
    dict_get k items = None.

(** The value of a lookup in optional mode. *)
Definition optional (d : json) (key : string) (valueType : value_type)
  : pyval :=
  match get d key false valueType with
  | Return v => v
  | Raise _ => PNone
  end.

(** The interval labels, in the order of their slots. *)
Definition faixa_labels : list string :=
  ["1_FAIXA"; "2_FAIXA"; "3_FAIXA"; "4_FAIXA"].

(** The entry's interval label is [label]. *)
Definition has_label (label : string) (entry : json) : bool :=
  match subscript entry "interval" with
  | Return v => eq_str v label
  | Raise _ => false
  end.

(** The last entry of the list whose interval label is [label]. *)
Fixpoint last_labelled (label : string) (entries : list json) : option json :=
  match entries with
  | [] => None
  | entry :: rest =>
      match last_labelled label rest with
      | Some e => Some e
      | None => if has_label label entry then Some entry else None
      end
  end.

(** An entry carries an interval label. *)
Definition labelled (entry : json) : Prop :=
  exists label, subscript entry "interval" = Return label.

(** A rate entry that is a dict without an [applications] field. *)
Definition plain_rate (rate : json) : Prop :=
  exists d, rate = JDict d /\ dict_has "applications" d = false.

(** The same world at another time. *)
Definition at_time (w : world) (t : Z) : world :=
  {| fs := fs w; now := t; windows := windows w;
     birthtime_supported := birthtime_supported w;
     network := network w; requested := requested w |}.

End Vocabulary.

(** ** utils.py: the digits-only extractor *)

Section DigitsOnly.
Context {R : Runtime}.

(** A character that [\d] matches: among the characters of a [string],
    the decimal digits are ['0'] to ['9']. *)
Definition is_digit (a : ascii) : bool :=
  ((48 <=? nat_of_ascii a) && (nat_of_ascii a <=? 57))%nat.

(** [re.sub(r'\D', '', value)], which is also [re.sub(r'[^\d]+', '', value)]. *)
Fixpoint digits_only (s : string) : string :=
  match s with
  | EmptyString => EmptyString
  | String a s' =>
      if is_digit a then String a (digits_only s') else digits_only s'
  end.

(** [getInt(dados, key)]: [None] is Python's [None]; the bare [except]
    turns every failure of [int] into [None]. *)
Definition getInt (dados : json) (key : string) : option Z :=
  match get dados key false TStr with
  | Return (PJson (JStr value)) => int_of_str (digits_only value)
  | _ => None
  end.

End DigitsOnly.

(** ** models.py: participants *)

Section Participants.
Context {R : Runtime}.

(** [k in x and type(x[k]) == str], with the text when the test holds. *)
Definition str_field (x : json) (k : string) : outcome (option string) :=
  let* present := py_in k x in
  if present then
    let* v := subscript x k in
    match v with
    | JStr s => Return (Some s)
    | _ => Return None
    end
  else Return None.

(** [for endPoint in api['ApiDiscoveryEndpoints']: ...append(...)]: the
    endpoints the loop appends. *)
Fixpoint discovery_loop (endPoints : list json) : outcome (list string) :=
  match endPoints with
  | [] => Return []
  | endPoint :: rest =>
      let* found := str_field endPoint "ApiEndpoint" in
      let* more := discovery_loop rest in
      Return (match found with
              | Some url => url :: more
              | None => more
              end)
  end.

(** [for api in server['ApiResources']: ...]. *)
Fixpoint resources_loop (apis : list json) : outcome (list string) :=
  match apis with
  | [] => Return []
  | api :: rest =>
      let* found := list_field api "ApiDiscoveryEndpoints" in
      let* here := match found with
                   | Some endPoints => discovery_loop endPoints
                   | None => Return []
                   end in
      let* more := resources_loop rest in
      Return (here ++ more)%list
  end.

(** [for server in data['AuthorisationServers']: ...]. *)
Fixpoint servers_loop (servers : list json) : outcome (list string) :=
  match servers with
  | [] => Return []
  | server :: rest =>
      let* found := list_field server "ApiResources" in
      let* here := match found with
                   | Some apis => resources_loop apis
                   | None => Return []
                   end in
      let* more := servers_loop rest in
      Return (here ++ more)%list
  end.

Record Participante : Type := {
  participante_dados : json;
  _endpoints : list string
}.

(** [Participante.__init__(openBaking, data)]. *)
Definition Participante_init (data : json) : outcome Participante :=
  let* _ := DataObject_init data in
  let* present := py_in "AuthorisationServers" data in
  if negb present then Raise InvalidDataException
  else
    let* servers := subscript data "AuthorisationServers" in
    match servers with
    | JList l =>
        let* found := servers_loop l in
        Return {| participante_dados := data; _endpoints := found |}
    | _ => Raise InvalidDataException
    end.

(** The property [Participante.cnpj]. *)
Definition cnpj (p : Participante) : outcome Z :=
  let* number := subscript (participante_dados p) "RegistrationNumber" in
  match number with
  | JStr s =>
      let res := digits_only s in
      if String.eqb res "" then Return 0
      else match int_of_str res with
           | Some z => Return z
           | None => Raise ValueError
           end
  | _ => Raise TypeError
  end.

(** The properties [registrationNumber], [identificador] and [status]. *)
Definition registrationNumber (p : Participante) : outcome pyval :=
  get (participante_dados p) "RegistrationNumber" true TStr.

Definition identificador (p : Participante) : outcome pyval :=
  get (participante_dados p) "OrganisationId" true TStr.

Definition status (p : Participante) : outcome pyval :=
  get (participante_dados p) "Status" true TStr.

(** ** __init__.py: the directory client *)

Definition directory_url : string :=
  "https://data.directory.openbankingbrasil.org.br/participants".

(** [for p in data: yield Participante(self, p)]. *)
Fixpoint participantes_loop (records : list json)
  : list Participante * option exn :=
  match records with
  | [] => ([], None)
  | p :: rest =>
      match Participante_init p with
      | Raise e => ([], Some e)
      | Return participante =>
          match participantes_loop rest with
          | (ps, r) => (participante :: ps, r)
          end
      end
  end.

(** [OpenBankingBR(cacheDir).participantes], run to its end. *)
Definition participantes (w : world) (cacheDir : option string)
  : world * (list Participante * option exn) :=
  match fetchUrl w directory_url cacheDir with
  | (w1, Raise e) => (w1, ([], Some e))
  | (w1, Return JNull) => (w1, ([], Some OpenBankingException))
  | (w1, Return (JList records)) => (w1, participantes_loop records)
  | (w1, Return _) => (w1, ([], Some InvalidDataException))
  end.

End Participants.

(** ** models.py: branches, and the walk over endpoints and pages *)

Section Walks.
Context {R : Runtime}.

(** [s.endswith(suffix)]. *)
Fixpoint endswith (s suffix : string) : bool :=
  String.eqb s suffix
  || match s with
     | EmptyString => false
     | String _ s' => endswith s' suffix
     end.

(** The property [DataObject.endPoint]. *)
Definition endPoint (dados : json) : outcome json :=
  let* present := py_in "endPoint" dados in
  if present then subscript dados "endPoint" else Return JNull.

Record Agencia : Type := {
  agencia_dados : json
}.

(** [Agencia.__init__(participante, data)]. *)
Definition Agencia_init (data : json) : outcome Agencia :=
  let* _ := DataObject_init data in
  Return {| agencia_dados := data |}.

(** [for branch in branches: branch['endPoint'] = page['endPoint'];
       yield Agencia(self, branch)]. *)
Fixpoint branches_loop (page : json) (branches : list json)
  : list Agencia * option exn :=
  match branches with
  | [] => ([], None)
  | branch :: rest =>
      match (let* url := subscript page "endPoint" in
             let* branch' := setitem branch "endPoint" url in
             Agencia_init branch') with
      | Raise e => ([], Some e)
      | Return agencia =>
          match branches_loop page rest with
          | (more, r) => (agencia :: more, r)
          end
      end
  end.

(** [for company in brand['companies']:
       branches = get(company, 'branches', valueType=list, required=True)
       for branch in branches: ...]; a [branches] that is null comes back
    as [None] and cannot be iterated. *)
Fixpoint branch_companies_loop (page : json) (companies : list json)
  : list Agencia * option exn :=
  match companies with
  | [] => ([], None)
  | company :: rest =>
      match (let* found := get company "branches" true TList in
             match found with
             | PJson branches => py_iter branches
             | PDatetime _ => Raise TypeError
             end) with
      | Raise e => ([], Some e)
      | Return branches =>
          match branches_loop page branches with
          | (found, Some e) => (found, Some e)
          | (found, None) =>
              match branch_companies_loop page rest with
              | (more, r) => ((found ++ more)%list, r)
              end
          end
      end
  end.

(** The body of [for page in fetchUrlPages(...)] of
    [Participante.agencias], for a page that is a JSON value. *)
Definition agencias_page (page : json) : list Agencia * option exn :=
  match py_in "brand" page with
  | Raise e => ([], Some e)
  | Return false => ([], None)
  | Return true =>
      match subscript page "brand" with
      | Raise e => ([], Some e)
      | Return brand =>
          match py_in "companies" brand with
          | Raise e => ([], Some e)
          | Return false => ([], None)
          | Return true =>
              match (let* cs := subscript brand "companies" in py_iter cs) with
              | Raise e => ([], Some e)
              | Return companies => branch_companies_loop page companies
              end
          end
      end
  end.

(** [for page in pages: body], where [body] starts with the test
    ['brand' in page].  On a page payload the test is the body's own; on a
    generator object the test runs the generator to its end, comparing
    each of its values with ['brand'], and is false, so the body goes on
    to the next page. *)
Fixpoint pages_loop {A : Type} (body : json -> list A * option exn)
    (w : world) (pages : list page_item) : world * (list A * option exn) :=
  match pages with
  | [] => (w, ([], None))
  | PageData data :: rest =>
      match body data with
      | (found, Some e) => (w, (found, Some e))
      | (found, None) =>
          match pages_loop body w rest with
          | (w', (more, r)) => (w', ((found ++ more)%list, r))
          end
      end
  | PageGenerator url cacheDir :: rest =>
      match fetchUrlPages w url cacheDir with
      | (w', (_, Some e)) => (w', ([], Some e))
      | (w', (_, None)) => pages_loop body w' rest
      end
  end.

(** [for page in fetchUrlPages(endPoint, cacheDir): body]: an exception
    of the walker itself ends the loop after the pages it yielded. *)
Definition walk_pages {A : Type} (body : json -> list A * option exn)
    (w : world) (url : string) (cacheDir : option string)
  : world * (list A * option exn) :=
  match fetchUrlPages w url cacheDir with
  | (w1, (pages, walker_end)) =>
      match pages_loop body w1 pages with
      | (w2, (found, Some e)) => (w2, (found, Some e))
      | (w2, (found, None)) => (w2, (found, walker_end))
      end
  end.

Definition branches_suffix : string := "/open-banking/channels/v1/branches".
Definition products_infix : string := "/open-banking/products-services/v1/".

(** [Participante.agencias]: the loop over the endpoints ends with
    [break] after the first endpoint that is walked. *)
Fixpoint agencias_endpoints (w : world) (cacheDir : option string)
    (endpoints : list string) : world * (list Agencia * option exn) :=
  match endpoints with
  | [] => (w, ([], None))
  | endPoint :: rest =>
      if negb (endswith endPoint branches_suffix)
      then agencias_endpoints w cacheDir rest
      else walk_pages agencias_page w endPoint cacheDir
  end.

Definition agencias (w : world) (cacheDir : option string) (p : Participante)
  : world * (list Agencia * option exn) :=
  agencias_endpoints w cacheDir (_endpoints p).

(** [Participante.produtos]: every endpoint of the products family is
    walked. *)
Fixpoint produtos_endpoints (w : world) (cacheDir : option string)
    (endpoints : list string) : world * (list Produto * option exn) :=
  match endpoints with
  | [] => (w, ([], None))
  | endPoint :: rest =>
      if negb (contains products_infix endPoint)
      then produtos_endpoints w cacheDir rest
      else
        match walk_pages produtos_page w endPoint cacheDir with
        | (w1, (found, Some e)) => (w1, (found, Some e))
        | (w1, (found, None)) =>
            match produtos_endpoints w1 cacheDir rest with
            | (w2, (more, r)) => (w2, ((found ++ more)%list, r))
            end
        end
  end.

Definition produtos (w : world) (cacheDir : option string) (p : Participante)
  : world * (list Produto * option exn) :=
  produtos_endpoints w cacheDir (_endpoints p).

End Walks.

(** ** models.py: the services, the packages and the category of a product *)

Section ProductDetails.
Context {R : Runtime}.

(** [for service in fees[key]: yield Servico(self.openBaking, service)]. *)
Fixpoint servicos_loop (services : list json) : list Servico * option exn :=
  match services with
  | [] => ([], None)
  | service :: rest =>
      match Servico_init service with
      | Raise e => ([], Some e)
      | Return s =>
          match servicos_loop rest with
          | (more, r) => (s :: more, r)
          end
      end
  end.

(** [for key in keys: if key in fees and type(fees[key]) == list: ...]. *)
Fixpoint fees_loop (fees : json) (keys : list string)
  : list Servico * option exn :=
  match keys with
  | [] => ([], None)
  | key :: rest =>
      match list_field fees key with
      | Raise e => ([], Some e)
      | Return None => fees_loop fees rest
      | Return (Some services) =>
          match servicos_loop services with
          | (found, Some e) => (found, Some e)
          | (found, None) =>
              match fees_loop fees rest with
              | (more, r) => ((found ++ more)%list, r)
              end
          end
      end
  end.

(** The property [Produto.servicos]. *)
Definition servicos (p : Produto) : list Servico * option exn :=
  match dict_field (produto_dados p) "fees" with
  | Raise e => ([], Some e)
  | Return None => ([], None)
  | Return (Some fees) =>
      fees_loop fees ["priorityServices"; "otherServices"; "services"]
  end.

(** [for bundle in self.dados['serviceBundles']:
       if type(bundle) == dict: yield Pacote(self.openBaking, bundle)]. *)
Fixpoint pacotes_loop (bundles : list json) : list Pacote * option exn :=
  match bundles with
  | [] => ([], None)
  | bundle :: rest =>
      if is_dict bundle then
        match Pacote_init bundle with
        | Raise e => ([], Some e)
        | Return pacote =>
            match pacotes_loop rest with
            | (more, r) => (pacote :: more, r)
            end
        end
      else pacotes_loop rest
  end.

(** The property [Produto.pacotes]. *)
Definition pacotes (p : Produto) : list Pacote * option exn :=
  match list_field (produto_dados p) "serviceBundles" with
  | Raise e => ([], Some e)
  | Return None => ([], None)
  | Return (Some bundles) => pacotes_loop bundles
  end.

(** The letters of the category names that are not ASCII. *)
Definition a_tilde : string := String (ascii_of_nat 227) EmptyString.
Definition c_cedilla : string := String (ascii_of_nat 231) EmptyString.
Definition e_acute : string := String (ascii_of_nat 233) EmptyString.
Definition i_acute : string := String (ascii_of_nat 237) EmptyString.

Definition conta_corrente : string := "Conta Corrente".
Definition cartao_de_credito : string :=
  "Cart" +:+ a_tilde +:+ "o de Cr" +:+ e_acute +:+ "dito".
Definition emprestimo : string := "Empr" +:+ e_acute +:+ "stimo".
Definition financiamento : string := "Financiamento".
Definition antecipacao_de_recebiveis : string :=
  "Antecipa" +:+ c_cedilla +:+ a_tilde +:+ "o de Receb" +:+ i_acute +:+ "veis".
Definition adiantamento_a_depositante : string := "Adiantamento a Depositante".

(** spec.py: the table [chaveCategorias]. *)
Definition chaveCategorias : list (string * string) :=
  [ ("personalAccounts", conta_corrente);
    ("businessAccounts", conta_corrente);
    ("personalCreditCards", cartao_de_credito);
    ("businessCreditCards", cartao_de_credito);
    ("personalLoans", emprestimo);
    ("businessLoans", emprestimo);
    ("personalFinancings", financiamento);
    ("businessFinancings", financiamento);
    ("personalInvoiceFinancings", antecipacao_de_recebiveis);
    ("businessInvoiceFinancings", antecipacao_de_recebiveis);
    ("personalUnarrangedAccountOverdraft", adiantamento_a_depositante);
    ("businessUnarrangedAccountOverdraft", adiantamento_a_depositante) ].

Fixpoint table_get (k : string) (table : list (string * string))
  : option string :=
  match table with
  | [] => None
  | (k', v) :: rest => if String.eqb k k' then Some v else table_get k rest
  end.

(** The property [Produto.categoria]. *)
Definition categoria (p : Produto) : string :=
  match table_get (produto_key p) chaveCategorias with
  | Some c => c
  | None => "Outros"
  end.

End ProductDetails.

(** ** batch.py: the CSV field writer *)

Section CsvField.
Context {R : Runtime}.

Definition double_quote : ascii := ascii_of_nat 34.
Definition newline : ascii := ascii_of_nat 10.

(** [s.replace(c, by)] for a one-character [c]. *)
Fixpoint replace_char (c : ascii) (by_ : string) (s : string) : string :=
  match s with
  | EmptyString => EmptyString
  | String a s' =>
      (if Ascii.eqb a c then by_ else String a EmptyString)
        +:+ replace_char c by_ s'
  end.

(** [_fix(value)]. *)
Definition _fix (value : json) : string :=
  match value with
  | JNull => ""
  | JStr s =>
      if String.eqb s "NA" then ""
      else
        String double_quote
          (replace_char double_quote
             (String double_quote (String double_quote EmptyString))
             (replace_char newline " " s)
           +:+ String double_quote EmptyString)
  | _ => py_str value
  end.

End CsvField.

(** ** Vocabulary of the further properties *)

Section FieldReader.

(** Reading a quoted field back as RFC 4180 has it: the field is enclosed
    in double quotes, and a double quote inside it is written twice.  The
    body is what follows the opening quote. *)
Fixpoint unquote_body (body : string) : option string :=
  match body with
  | EmptyString => None
  | String c rest =>
      if Ascii.eqb c double_quote then
        match rest with
        | EmptyString => Some EmptyString
        | String c' rest' =>
            if Ascii.eqb c' double_quote
            then String double_quote <$> unquote_body rest'
            else None
        end
      else String c <$> unquote_body rest
  end.

Definition csv_unquote (field : string) : option string :=
  match field with
  | EmptyString => None
  | String c body => if Ascii.eqb c double_quote then unquote_body body else None
  end.

(** [c in s] for a character. *)
Fixpoint occurs (c : ascii) (s : string) : bool :=
  match s with
  | EmptyString => false
  | String a s' => Ascii.eqb a c || occurs c s'
  end.

End FieldReader.

Section ParticipantVocabulary.
Context {R : Runtime}.

(** The record is a dict that holds a list under [AuthorisationServers]. *)
Definition has_servers (data : json) : Prop :=
  exists d l, data = JDict d /\ dict_get "AuthorisationServers" d = Some (JList l).

(** Every record of the list constructs, giving the participants [ps]. *)
Definition all_construct (records : list json) (ps : list Participante) : Prop :=
  Forall2 (fun r p => Participante_init r = Return p) records ps.

(** The agency made of a branch that is a dict, stamped with the URL of
    its page. *)
Definition stamped (url : json) (branch : json) : Agencia :=
  {| agencia_dados := match branch with
                      | JDict d => JDict (dict_set "endPoint" url d)
                      | _ => branch
                      end |}.

(** The company is a dict whose [branches] is the list [branches], every
    branch a dict. *)
Definition company_branches (company : json) (branches : list json) : Prop :=
  exists d, company = JDict d /\
            dict_get "branches" d = Some (JList branches) /\
            Forall (fun b => is_dict b = true) branches.

(** The categories of the table [chaveCategorias]. *)
Definition categories : list string :=
  [ conta_corrente; cartao_de_credito; emprestimo; financiamento;
    antecipacao_de_recebiveis; adiantamento_a_depositante ].

(** Both lists of slots have the four slots. *)
Definition four_slots (f : Faixas) : Prop :=
  length (taxa f) = 4%nat /\ length (clientes f) = 4%nat.

(** Every service of the list constructs, giving the services [ss]. *)
Definition services_construct (services : list json) (ss : list Servico)
  : Prop :=
  Forall2 (fun service s => Servico_init service = Return s) services ss.


End ParticipantVocabulary.

Section FurtherExamples.
#[local] Existing Instance Example.runtime.

(** A text with a double quote and a line break. *)
Definition quoted_text : string :=
  "Ag" +:+ String double_quote ("Centro" +:+ String double_quote
    (String newline "1 andar")).

(** A participant record with two servers, the first with two endpoints. *)
Definition server_a : json :=
  JDict [("ApiResources",
          JList [JDict [("ApiDiscoveryEndpoints",
                         JList [JDict [("ApiEndpoint", JStr "https://a.example/open-banking/channels/v1/branches")];
                                JDict [("ApiEndpoint", JStr "https://a.example/open-banking/products-services/v1/personal-loans")]])]])].

Definition server_b : json :=
  JDict [("ApiResources",
          JList [JDict [("ApiFamilyType", JStr "discovery")];
                 JDict [("ApiDiscoveryEndpoints",
                         JList [JDict [("ApiEndpoint", JStr "https://b.example/open-banking/channels/v1/branches")]])]])].

Definition bank_record (servers : list json) : list (string * json) :=
  [("OrganisationId", JStr "7f5e3b0a");
   ("OrganisationName", JStr "Bank");
   ("RegistrationNumber", JStr "12.345.678/0001-90");
   ("AuthorisationServers", JList servers)].

(** A directory server that answers the directory URL with [records]. *)
Definition directory_network (records : json) (url : string) : reply :=
  if String.eqb url directory_url then Responds 200 (Some records)
  else Fails ConnectionError.

Definition directory_world (records : json) : world :=
  {| fs := ∅; now := noon; windows := false; birthtime_supported := false;
     network := directory_network records; requested := [] |}.

(** A branches server with two pages, the first linking to the second. *)
Definition branches_url : string :=
  "https://bank.example/open-banking/channels/v1/branches".
Definition branches_url2 : string :=
  "https://bank.example/open-banking/channels/v1/branches?page=2".

Definition branch (code name : string) : json :=
  JDict [("identification", JDict [("code", JStr code); ("name", JStr name)])].

Definition branches_payload (branches : list json) : list (string * json) :=
  [("brand", JDict [("name", JStr "Bank");
                    ("companies",
                     JList [JDict [("name", JStr "Bank SA");
                                   ("branches", JList branches)]])])].

Definition branches_root1 : json :=
  JDict [("data", JDict (branches_payload [branch "0001" "Centro";
                                            branch "0002" "Sul"]));
         ("links", JDict [("self", JStr branches_url);
                          ("next", JStr branches_url2)])].

Definition branches_root2 : json :=
  JDict [("data", JDict (branches_payload [branch "0003" "Norte"]));
         ("links", JDict [("self", JStr branches_url2)])].

Definition branches_network (url : string) : reply :=
  if String.eqb url branches_url then Responds 200 (Some branches_root1)
  else if String.eqb url branches_url2 then Responds 200 (Some branches_root2)
  else Fails ConnectionError.

(** A branches page of two companies, the second without [branches]. *)
Definition company_one_branch : json :=
  JDict [("name", JStr "Bank SA");
         ("branches", JList [branch "0001" "Centro"])].

Definition company_no_branches : json :=
  JDict [("name", JStr "Bank Holding")].

Definition branches_brand : list (string * json) :=
  [("name", JStr "Bank");
   ("companies", JList ([company_one_branch] ++ [company_no_branches]))].

Definition branches_page_missing : list (string * json) :=
  [("brand", JDict branches_brand); ("endPoint", JStr branches_url)].

(** A products server with one page of one company offering the loan with
    two interest-rate entries. *)
Definition loans_root : json :=
  JDict [("data",
          JDict [("brand",
                  JDict [("name", JStr "Bank");
                         ("companies",
                          JList [JDict [("personalLoans",
                                         JList [loan_two_rates])]])])]);
         ("links", JDict [("self", JStr page1_url)])].

Definition loans_network (url : string) : reply :=
  if String.eqb url page1_url then Responds 200 (Some loans_root)
  else branches_network url.

(** A participant with a products endpoint and two branches endpoints. *)
Definition bank_participant : Participante :=
  {| participante_dados := JDict (bank_record []);
     _endpoints := [ page1_url; branches_url;
                     "https://b.example/open-banking/channels/v1/branches" ] |}.

(** An account product over the data [dados], without interest rate. *)
Definition account_product (dados : json) : Produto :=
  {| produto_key := "personalAccounts"; produto_dados := dados;
     produto_faixas := no_faixas; jurosRate := PNone; jutosTipo := PNone;
     minimumRate := PNone; maximumRate := PNone |}.

Definition extrato : json := JDict [("name", JStr "Extrato")].

Definition account_fees : list (string * json) :=
  [("priorityServices", JList [JDict saque]);
   ("otherServices", JList []);
   ("services", JList [extrato])].

Definition account_with_fees : list (string * json) :=
  [("type", JStr "CONTA_DEPOSITO_A_VISTA"); ("fees", JDict account_fees)].

(** An account with a bundle whose price has no [interval]. *)
Definition account_with_bundle : json :=
  JDict [("type", JStr "CONTA_DEPOSITO_A_VISTA");
         ("serviceBundles",
          JList [JDict [("name", JStr "Pacote");
                         ("prices", JList [JDict [("value", JStr "1.00")]])]])].

(** At noon, a world with the files [files] and the servers [net]. *)
Definition world_with (files : gmap string node) (net : string -> reply)
  : world :=
  {| fs := files; now := noon; windows := false; birthtime_supported := false;
     network := net; requested := [] |}.

Definition cache_directory : gmap string node :=
  {["cache" := node_at (noon - 3600) Directory]}.


End FurtherExamples.

(** * Properties *)

(** ** The field accessor *)

(** Case analysis on what the runtime answers. *)
Ltac case_runtime :=
  repeat match goal with
         | |- context [int_of_float ?f] => destruct (int_of_float f)
         | |- context [int_of_str ?s] => destruct (int_of_str s)
         | |- context [float_of_int ?z] => destruct (float_of_int z)
         | |- context [float_of_str ?s] => destruct (float_of_str s)
         | |- context [fromisoformat ?s] => destruct (fromisoformat s)
         end.

Section FieldAccessorFacts.
Context {R : Runtime}.

Lemma value_at_null (keys : list string) (v : json) :
  value_at JNull keys = Some v -> keys = [] /\ v = JNull.
Proof.
  destruct keys as [|k keys]; simpl; intros H.
  - split; congruence.
  - discriminate.
Qed.

(** The walk follows the path through the dicts and stops at a null. *)
Lemma walk_null (pre post : list string) :
  forall d, pre <> [] -> value_at d pre = Some JNull ->
            walk d (pre ++ post) = Return ReturnedNone.
Proof.
  induction pre as [|k pre IH]; intros d Hne Hat; [congruence|].
  simpl in *. destruct d as [| | | | | |items]; try discriminate.
  simpl. destruct (dict_get k items) as [v|]; [|discriminate].
  destruct pre as [|k' pre].
  - simpl in Hat. injection Hat as ->. reflexivity.
  - assert (Hv : exists items', v = JDict items').
    { simpl in Hat. destruct v; try discriminate. eauto. }
    destruct Hv as [items' ->]. apply IH; [discriminate|exact Hat].
Qed.

Lemma walk_reaches (keys : list string) :
  forall d cur, value_at d keys = Some cur -> cur <> JNull ->
                walk d keys = Return (Reached cur).
Proof.
  induction keys as [|k keys IH]; intros d cur Hat Hcur; simpl in *.
  - congruence.
  - destruct d as [| | | | | |items]; try discriminate.
    simpl. destruct (dict_get k items) as [v|]; [|discriminate].
    destruct v; try (apply IH; assumption).
    apply value_at_null in Hat as [_ ->]. congruence.
Qed.

Lemma walk_missing (keys : list string) (d : json) :
  missing_key d keys -> walk d keys = Raise KeyError.
Proof.
  intros (pre & k & post & items & -> & Hat & Hk).
  revert d Hat. induction pre as [|k0 pre IH]; intros d Hat; simpl in *.
  - injection Hat as ->. simpl. rewrite Hk. reflexivity.
  - destruct d as [| | | | | |items0]; try discriminate.
    simpl. destruct (dict_get k0 items0) as [v|]; [|discriminate].
    destruct v; try (apply IH; assumption).
    apply value_at_null in Hat as [_ ?]. discriminate.
Qed.

Lemma walk_raises (keys : list string) :
  forall d e, walk d keys = Raise e -> e = KeyError \/ e = TypeError.
Proof.
  induction keys as [|k keys IH]; intros d e H; simpl in H; [discriminate|].
  destruct (subscript d k) as [v|e'] eqn:Hs.
  - destruct v; try (eapply IH; eassumption). discriminate.
  - injection H as <-. unfold subscript in Hs.
    destruct d; try (injection Hs as <-; auto).
    destruct (dict_get k d); [discriminate|]. injection Hs as <-; auto.
Qed.

Lemma coerce_raises (valueType : value_type) (cur : json) (e : exn) :
  coerce valueType cur = Raise e ->
  e = ValueError \/ e = TypeError \/ e = OverflowError \/ e = NotImplementedError.
Proof.
  unfold coerce, py_int, py_float, py_fromisoformat, bind.
  destruct valueType, cur; simpl; case_runtime;
    intros H; try discriminate; injection H as <-; auto.
Qed.

Lemma get_optional_returns (d : json) (key : string) (valueType : value_type) :
  exists v, get d key false valueType = Return v.
Proof.
  unfold get. destruct (get_try d key valueType) as [v|e]; [eauto|].
  destruct (is_ValueError e), (is_KeyError e); eauto.
Qed.

(** C7, as amended.  In optional mode the lookup never raises: a missing
    key and a failed coercion both yield [None].  In required mode a
    missing key raises [RequiredFieldException], and so does a coercion
    that fails with a [ValueError]; a coercion that fails with another
    error raises that error, and the errors the required lookup can raise
    are [RequiredFieldException], [TypeError], [OverflowError] and
    [NotImplementedError]. *)
Theorem get_error_modes (d : json) (key : string) (valueType : value_type) :
  (exists v, get d key false valueType = Return v) /\
  (missing_key d (split_on "." key) ->
     get d key false valueType = Return PNone /\
     get d key true valueType = Raise RequiredFieldException) /\
  (forall cur e,
     value_at d (split_on "." key) = Some cur -> cur <> JNull ->
     coerce valueType cur = Raise e ->
     get d key false valueType = Return PNone /\
     get d key true valueType =
       Raise (if is_ValueError e then RequiredFieldException else e)) /\
  (forall e,
     get d key true valueType = Raise e ->
     e = RequiredFieldException \/ e = TypeError \/ e = OverflowError \/
     e = NotImplementedError).
Proof.
  split; [apply get_optional_returns|]. split; [|split].
  - intros Hm. apply walk_missing in Hm.
    unfold get, get_try. rewrite Hm. simpl. auto.
  - intros cur e Hat Hcur Hc. apply walk_reaches in Hat; [|exact Hcur].
    unfold get, get_try. rewrite Hat, Hc.
    destruct (coerce_raises _ _ _ Hc) as [->|[->|[->| ->]]]; simpl; auto.
  - intros e. unfold get, get_try.
    destruct (walk d (split_on "." key)) as [[cur|]|e'] eqn:Hw.
    + destruct (coerce valueType cur) as [v|e'] eqn:Hc; [discriminate|].
      destruct (coerce_raises _ _ _ Hc) as [->|[->|[->| ->]]]; simpl;
        intros H; injection H as <-; auto.
    + discriminate.
    + destruct (walk_raises _ _ _ Hw) as [-> | ->]; simpl;
        intros H; injection H as <-; auto.
Qed.

(** C10.  When the value at some prefix of the dotted path is null, the
    lookup returns [None] without raising, in required mode as in optional
    mode and whatever type is requested. *)
Theorem get_null_on_path (d : json) (key : string) (required : bool)
    (valueType : value_type) (pre post : list string) :
  split_on "." key = (pre ++ post)%list ->
  pre <> [] ->
  value_at d pre = Some JNull ->
  get d key required valueType = Return PNone.
Proof.
  intros Hkey Hne Hat. unfold get, get_try.
  rewrite Hkey, (walk_null pre post d Hne Hat). reflexivity.
Qed.

End FieldAccessorFacts.

Section FieldAccessorExamples.
#[local] Existing Instance Example.runtime.

Lemma get_error_modes_witness :
  (get (JDict [("identification", JDict [])]) "identification.type" false TStr
     = Return PNone /\
   get (JDict [("identification", JDict [])]) "identification.type" true TStr
     = Raise RequiredFieldException) /\
  (get (JDict [("code", JStr "12a")]) "code" false TInt = Return PNone /\
   get (JDict [("code", JStr "12a")]) "code" true TInt
     = Raise RequiredFieldException) /\
  (get (JDict [("code", JList [])]) "code" false TInt = Return PNone /\
   get (JDict [("code", JList [])]) "code" true TInt = Raise TypeError).
Proof.
  split; [|split].
  - apply (get_error_modes (JDict [("identification", JDict [])])
             "identification.type" TStr).
    exists ["identification"], "type", [], []. repeat split.
  - destruct (get_error_modes (JDict [("code", JStr "12a")]) "code" TInt)
      as (_ & _ & H & _).
    apply (H (JStr "12a") ValueError); [reflexivity|discriminate|reflexivity].
  - destruct (get_error_modes (JDict [("code", JList [])]) "code" TInt)
      as (_ & _ & H & _).
    apply (H (JList []) TypeError); [reflexivity|discriminate|reflexivity].
Defined.

(** C7 as stated fails: in required mode a coercion that fails, and a path
    that runs into a value that is not a mapping, raise [TypeError]. *)
Lemma get_required_raises_TypeError :
  get (JDict [("code", JList [JInt 1])]) "code" true TInt = Raise TypeError /\
  get (JDict [("postalAddress", JStr "Rua A, 1")]) "postalAddress.townName"
      true TStr = Raise TypeError /\
  TypeError <> RequiredFieldException.
Proof. repeat split; discriminate. Qed.

Lemma get_null_on_path_witness :
  get (JDict [("postalAddress", JNull)]) "postalAddress.townName" true TStr
    = Return PNone.
Proof.
  apply (get_null_on_path _ _ _ _ ["postalAddress"] ["townName"]);
    [reflexivity|discriminate|reflexivity].
Defined.

End FieldAccessorExamples.

(** ** The four-slot decoding of fee and rate lists *)

Section FaixaFacts.
Context {R : Runtime}.

Lemma faixa_index_label (v : json) (i : nat) (label : string) :
  faixa_labels !! i = Some label ->
  faixa_index v = Some i <-> eq_str v label = true.
Proof.
  intros Hl. unfold faixa_index.
  destruct v as [| | | |s| |];
    try (simpl; split; discriminate).
  simpl.
  destruct (String.eqb_spec s "1_FAIXA") as [->|H1];
    [|destruct (String.eqb_spec s "2_FAIXA") as [->|H2];
      [|destruct (String.eqb_spec s "3_FAIXA") as [->|H3];
        [|destruct (String.eqb_spec s "4_FAIXA") as [->|H4]]]];
    destruct i as [|[|[|[|i]]]]; simpl in Hl; try discriminate;
    injection Hl as <-; split; intros H; try discriminate; try reflexivity;
    apply String.eqb_eq in H; congruence.
Qed.

Lemma faixa_labels_lt (i : nat) (label : string) :
  faixa_labels !! i = Some label -> (i < 4)%nat.
Proof. intros H. apply lookup_lt_Some in H. exact H. Qed.

Lemma optional_get (d : json) (key : string) (valueType : value_type) :
  get d key false valueType = Return (optional d key valueType).
Proof.
  unfold optional.
  destruct (get_optional_returns d key valueType) as [v ->]. reflexivity.
Qed.

(** One entry changes the slot of its label and no other. *)
Lemma faixa_step_slots (ratePath : string) (f : Faixas) (entry : json) :
  labelled entry ->
  length (taxa f) = 4%nat -> length (clientes f) = 4%nat ->
  exists f',
    faixa_step ratePath f entry = Return f' /\
    length (taxa f') = 4%nat /\ length (clientes f') = 4%nat /\
    forall i label, faixa_labels !! i = Some label ->
      taxa f' !! i =
        (if has_label label entry
         then Some (optional entry ratePath TFloat) else taxa f !! i) /\
      clientes f' !! i =
        (if has_label label entry
         then Some (optional entry "customers.rate" TFloat)
         else clientes f !! i).
Proof.
  intros [v Hv] Ht Hc. unfold faixa_step, has_label. rewrite Hv. simpl.
  destruct (faixa_index v) as [j|] eqn:Hj.
  - rewrite !optional_get. simpl. eexists. split; [reflexivity|]. simpl.
    rewrite !length_insert. repeat split; try assumption.
    + destruct (decide (i = j)) as [->|Hne].
      * apply (faixa_index_label v j label H) in Hj as ->.
        apply list_lookup_insert_eq. rewrite Ht.
        eapply faixa_labels_lt; eassumption.
      * destruct (eq_str v label) eqn:He.
        { apply (faixa_index_label v i label H) in He. congruence. }
        apply list_lookup_insert_ne. congruence.
    + destruct (decide (i = j)) as [->|Hne].
      * apply (faixa_index_label v j label H) in Hj as ->.
        apply list_lookup_insert_eq. rewrite Hc.
        eapply faixa_labels_lt; eassumption.
      * destruct (eq_str v label) eqn:He.
        { apply (faixa_index_label v i label H) in He. congruence. }
        apply list_lookup_insert_ne. congruence.
  - exists f. repeat split; try assumption;
      (destruct (eq_str v label) eqn:He;
       [apply (faixa_index_label v i label H) in He; congruence|reflexivity]).
Qed.

(** After the loop, each slot holds what the last entry with its label
    gave, and what it held before when no entry has its label. *)
Lemma decode_faixas_slots (ratePath : string) (entries : list json) :
  forall f,
    Forall labelled entries ->
    length (taxa f) = 4%nat -> length (clientes f) = 4%nat ->
    exists f',
      decode_faixas ratePath f entries = Return f' /\
      forall i label, faixa_labels !! i = Some label ->
        taxa f' !! i =
          match last_labelled label entries with
          | Some e => Some (optional e ratePath TFloat)
          | None => taxa f !! i
          end /\
        clientes f' !! i =
          match last_labelled label entries with
          | Some e => Some (optional e "customers.rate" TFloat)
          | None => clientes f !! i
          end.
Proof.
  induction entries as [|entry rest IH]; intros f Hall Ht Hc.
  - exists f. split; [reflexivity|]. intros; split; reflexivity.
  - inversion Hall as [|? ? Hentry Hrest]; subst.
    destruct (faixa_step_slots ratePath f entry Hentry Ht Hc)
      as (f1 & Hstep & Ht1 & Hc1 & Hslots).
    destruct (IH f1 Hrest Ht1 Hc1) as (f' & Hdec & Hfinal).
    exists f'. split.
    + simpl. rewrite Hstep. exact Hdec.
    + intros i label Hl. destruct (Hfinal i label Hl) as [Hta Hcl].
      destruct (Hslots i label Hl) as [Hta1 Hcl1].
      simpl. rewrite Hta, Hcl.
      destruct (last_labelled label rest); [split; reflexivity|].
      rewrite Hta1, Hcl1. destruct (has_label label entry); split; reflexivity.
Qed.

Lemma decode_prices_list (dados : list (string * json)) (prices : list json) :
  dict_get "prices" dados = Some (JList prices) ->
  decode_prices (JDict dados) = decode_faixas "value" no_faixas prices.
Proof.
  intros H. unfold decode_prices, get, get_try. simpl. rewrite H. reflexivity.
Qed.

(** C9.  For a service or a package whose [prices] is a list of labelled
    entries, construction succeeds and slot [i] of the rates and of the
    customer shares holds the pair of the last entry whose label is the
    [i]-th of [1_FAIXA] .. [4_FAIXA], and is absent when no entry has that
    label: an entry labelled [3_FAIXA] is seen in slot 2 only, and an entry
    with any other label is seen in no slot. *)
Theorem prices_decoding (dados : list (string * json)) (prices : list json) :
  dict_get "prices" dados = Some (JList prices) ->
  Forall labelled prices ->
  exists f,
    Servico_init (JDict dados)
      = Return {| servico_dados := JDict dados; servico_faixas := f |} /\
    Pacote_init (JDict dados)
      = Return {| pacote_dados := JDict dados; pacote_faixas := f |} /\
    forall i label, faixa_labels !! i = Some label ->
      match last_labelled label prices with
      | Some price =>
          taxa f !! i = Some (optional price "value" TFloat) /\
          clientes f !! i = Some (optional price "customers.rate" TFloat)
      | None => taxa f !! i = Some PNone /\ clientes f !! i = Some PNone
      end.
Proof.
  intros Hp Hall.
  destruct (decode_faixas_slots "value" prices no_faixas Hall eq_refl eq_refl)
    as (f & Hdec & Hslots).
  exists f. unfold Servico_init, Pacote_init.
  rewrite (decode_prices_list dados prices Hp), Hdec. simpl.
  split; [reflexivity|]. split; [reflexivity|].
  intros i label Hl. destruct (Hslots i label Hl) as [Ht Hc].
  rewrite Ht, Hc.
  destruct (last_labelled label prices); [split; reflexivity|].
  destruct i as [|[|[|[|i]]]]; try (split; reflexivity). discriminate.
Qed.

End FaixaFacts.

Section FaixaExamples.
#[local] Existing Instance Example.runtime.

(** The service [saque]: the price labelled [3_FAIXA] is in slot 2 and the
    price labelled [5_FAIXA] is nowhere. *)
Example saque_faixas :
  servico_faixas <$> (match Servico_init (JDict saque) with
                      | Return s => Some s
                      | Raise _ => None
                      end)
  = Some {| taxa := [PNone; PNone; PJson (JFloat (1050, 2%nat)); PNone];
            clientes := [PNone; PNone; PJson (JFloat (30, 2%nat)); PNone] |}.
Proof. reflexivity. Qed.

Lemma prices_decoding_witness :
  exists f,
    Servico_init (JDict saque)
      = Return {| servico_dados := JDict saque; servico_faixas := f |} /\
    Pacote_init (JDict saque)
      = Return {| pacote_dados := JDict saque; pacote_faixas := f |} /\
    forall i label, faixa_labels !! i = Some label ->
      match last_labelled label saque_prices with
      | Some price =>
          taxa f !! i = Some (optional price "value" TFloat) /\
          clientes f !! i = Some (optional price "customers.rate" TFloat)
      | None => taxa f !! i = Some PNone /\ clientes f !! i = Some PNone
      end.
Proof.
  apply (prices_decoding saque saque_prices); [reflexivity|].
  constructor; [exists (JStr "3_FAIXA"); reflexivity|].
  constructor; [exists (JStr "5_FAIXA"); reflexivity|].
  constructor.
Defined.

End FaixaExamples.

(** ** The cache store and the HTTP fetcher *)

Section FetcherFacts.
Context {R : Runtime}.

Lemma regular_file_not_directory (n : node) (content : option json) :
  kind n = RegularFile content -> is_directory n = false.
Proof. unfold is_directory. intros ->. reflexivity. Qed.

(** The network is called exactly once by the [try] block, whatever it
    answers. *)
Lemma fetch_try_requested (w : world) (url : string) (entry : option string) :
  requested (fetch_try w url entry).1 = (requested w ++ [url])%list.
Proof.
  unfold fetch_try.
  destruct (network w url) as [e|status [data|]]; try reflexivity.
  destruct (is_none data); [reflexivity|].
  destruct entry as [path|]; [|reflexivity].
  unfold write_json. simpl.
  destruct (fs w !! path) as [n|]; [|reflexivity].
  destruct (is_directory n); reflexivity.
Qed.

Lemma fetchUrl_after_miss (w w1 : world) (url : string)
    (cacheDir entry : option string) :
  cache_lookup w url cacheDir = (w1, Return (Missed entry)) ->
  requested (fetchUrl w url cacheDir).1 = (requested w1 ++ [url])%list.
Proof.
  intros H. unfold fetchUrl. rewrite H.
  pose proof (fetch_try_requested w1 url entry) as Hr.
  destruct (fetch_try w1 url entry) as [w2 [data|e]]; [exact Hr|].
  destruct (is_InvalidURL e); [exact Hr|].
  destruct (is_ValueError e); exact Hr.
Qed.

(** C5.  With the cache directory in place and a cache file holding a
    document for the URL: when the file's creation date is today's date the
    fetch returns the stored document and leaves the world as it was, so no
    request is made; when the dates differ the fetch behaves as on a world
    where the file has been deleted, a request for the URL is made, and the
    stale file is no longer at its path. *)
Theorem cache_served_iff_created_today (w : world) (url dir : string)
    (bytes : list ascii) (dn n : node) (doc : json) :
  fs w !! dir = Some dn ->
  is_directory dn = true ->
  encode_ascii url = Return bytes ->
  fs w !! cache_entry_path dir bytes = Some n ->
  kind n = RegularFile (Some doc) ->
  (local_date (creation_time w n) = local_date (now w) ->
     fetchUrl w url (Some dir) = (w, Return doc)) /\
  (local_date (creation_time w n) <> local_date (now w) ->
     fetchUrl w url (Some dir)
       = fetchUrl (with_fs w (delete (cache_entry_path dir bytes) (fs w)))
                  url (Some dir) /\
     requested (fetchUrl w url (Some dir)).1 = (requested w ++ [url])%list /\
     fs (fetchUrl w url (Some dir)).1 !! cache_entry_path dir bytes <> Some n).
Proof.
  intros Hdir Hisdir Henc Hentry Hkind.
  pose proof (regular_file_not_directory n _ Hkind) as Hfile.
  set (path := cache_entry_path dir bytes) in *.
  assert (Hne : dir <> path).
  { intros Heq. rewrite Heq, Hentry in Hdir. injection Hdir as <-. congruence. }
  split.
  - intros Htoday. unfold fetchUrl, cache_lookup.
    rewrite Hdir, Hisdir, Henc. fold path.
    unfold file_was_created_today, read_json. rewrite Hentry, Hkind.
    apply Z.eqb_eq in Htoday. rewrite Htoday. reflexivity.
  - intros Hstale.
    assert (Hmiss : cache_lookup w url (Some dir)
                    = (with_fs w (delete path (fs w)), Return (Missed (Some path)))).
    { unfold cache_lookup. rewrite Hdir, Hisdir, Henc. fold path.
      unfold file_was_created_today. rewrite Hentry.
      apply Z.eqb_neq in Hstale. rewrite Hstale.
      unfold remove. rewrite Hfile. reflexivity. }
    assert (Hmiss' : cache_lookup (with_fs w (delete path (fs w))) url (Some dir)
                     = (with_fs w (delete path (fs w)), Return (Missed (Some path)))).
    { unfold cache_lookup. simpl. rewrite lookup_delete_ne by exact (not_eq_sym Hne).
      rewrite Hdir, Hisdir, Henc. fold path.
      unfold file_was_created_today. simpl. rewrite lookup_delete_eq.
      reflexivity. }
    split; [|split].
    + unfold fetchUrl. rewrite Hmiss, Hmiss'. reflexivity.
    + rewrite (fetchUrl_after_miss _ _ _ _ _ Hmiss). reflexivity.
    + unfold fetchUrl. rewrite Hmiss. unfold fetch_try. simpl.
      assert (Hgone : delete path (fs w) !! path <> Some n)
        by (rewrite lookup_delete_eq; discriminate).
      destruct (network w url) as [e|status [data|]]; simpl.
      * destruct (is_InvalidURL e); [exact Hgone|].
        destruct (is_ValueError e); exact Hgone.
      * destruct (is_none data); [exact Hgone|].
        unfold write_json. simpl. rewrite lookup_delete_eq. simpl.
        rewrite lookup_insert_eq. intros [= <-].
        apply Hstale. unfold creation_time, new_node. simpl.
        destruct (windows w), (birthtime_supported w); reflexivity.
      * exact Hgone.
Qed.

(** A document fetched and cached is served again, unchanged and without
    a request, at any later time of the same day. *)
Lemma fetchUrl_again_same_day (w : world) (url dir : string)
    (bytes : list ascii) (dn : node) (status : Z) (data : json) (t : Z) :
  fs w !! dir = Some dn ->
  is_directory dn = true ->
  encode_ascii url = Return bytes ->
  fs w !! cache_entry_path dir bytes = None ->
  network w url = Responds status (Some data) ->
  is_none data = false ->
  local_date t = local_date (now w) ->
  (fetchUrl w url (Some dir)).2 = Return data /\
  fetchUrl (at_time (fetchUrl w url (Some dir)).1 t) url (Some dir)
    = (at_time (fetchUrl w url (Some dir)).1 t, Return data).
Proof.
  intros Hdir Hisdir Henc Hentry Hnet Hdata Ht.
  set (path := cache_entry_path dir bytes) in *.
  assert (Hne : dir <> path) by (intros Heq; rewrite Heq in Hdir; congruence).
  assert (Hfirst : fetchUrl w url (Some dir)
            = (with_fs (with_request w url)
                 (<[path := new_node w (RegularFile (Some data))]> (fs w)),
               Return data)).
  { unfold fetchUrl, cache_lookup. rewrite Hdir, Hisdir, Henc. fold path.
    unfold file_was_created_today. rewrite Hentry.
    unfold fetch_try. rewrite Hnet, Hdata. unfold write_json. simpl.
    rewrite Hentry. reflexivity. }
  rewrite Hfirst. simpl. split; [reflexivity|].
  unfold fetchUrl, cache_lookup. simpl.
  rewrite lookup_insert_ne by exact (not_eq_sym Hne).
  rewrite Hdir, Hisdir, Henc. fold path.
  unfold file_was_created_today, read_json. simpl.
  rewrite lookup_insert_eq. simpl.
  unfold creation_time, new_node. simpl.
  destruct (windows w), (birthtime_supported w); simpl;
    rewrite <- Ht, Z.eqb_refl; reflexivity.
Qed.

End FetcherFacts.

Section CacheExamples.
#[local] Existing Instance Example.runtime.

Lemma cache_served_iff_created_today_witness :
  fetchUrl (cached_world (noon - 3600)) page1_url (Some "cache")
    = (cached_world (noon - 3600), Return page1_root) /\
  requested (fetchUrl (cached_world (noon - 86400)) page1_url (Some "cache")).1
    = [page1_url].
Proof.
  split.
  - destruct (cache_served_iff_created_today (cached_world (noon - 3600))
                page1_url "cache" page1_bytes
                (node_at (noon - 3600) Directory)
                (node_at (noon - 3600) (RegularFile (Some page1_root)))
                page1_root eq_refl eq_refl eq_refl eq_refl eq_refl)
      as [Hfresh _].
    exact (Hfresh eq_refl).
  - destruct (cache_served_iff_created_today (cached_world (noon - 86400))
                page1_url "cache" page1_bytes
                (node_at (noon - 86400) Directory)
                (node_at (noon - 86400) (RegularFile (Some page1_root)))
                page1_root eq_refl eq_refl eq_refl eq_refl eq_refl)
      as [_ Hstale].
    destruct Hstale as (_ & Hrequested & _); [|exact Hrequested].
    intros H. lazy in H. discriminate H.
Defined.

End CacheExamples.

Section FetcherFailureFacts.
Context {R : Runtime}.

(** Looking the cache up changes the file system only. *)
Lemma cache_lookup_network (w w1 : world) (url : string)
    (cacheDir : option string) (r : outcome cache_step) :
  cache_lookup w url cacheDir = (w1, r) ->
  network w1 = network w /\ requested w1 = requested w.
Proof.
  unfold cache_lookup, makedirs, remove, read_json.
  intros H. repeat case_match; simplify_eq; auto.
Qed.

(** After a miss with a cache configured, nothing is at the entry's path. *)
Lemma cache_lookup_missed (w w1 : world) (url : string)
    (cacheDir : option string) (path : string) :
  cache_lookup w url cacheDir = (w1, Return (Missed (Some path))) ->
  fs w1 !! path = None.
Proof.
  unfold cache_lookup, makedirs, remove, read_json.
  intros H. repeat case_match; simplify_eq; simpl;
    try assumption; apply lookup_delete_eq.
Qed.

(** Without a cache directory the fetch never returns a document: the
    variable [cacheEntry] is unbound when the document is to be written. *)
Lemma fetchUrl_without_cache (w : world) (url : string) :
  fetchUrl w url None =
    (with_request w url,
     match network w url with
     | Fails e =>
         if is_InvalidURL e then Return JNull
         else if is_ValueError e then Raise OpenBankingException
         else Return JNull
     | Responds _ None => Raise OpenBankingException
     | Responds _ (Some _) => Return JNull
     end).
Proof.
  unfold fetchUrl, cache_lookup, fetch_try.
  destruct (network w url) as [e|status [data|]]; simpl.
  - destruct (is_InvalidURL e); [reflexivity|].
    destruct (is_ValueError e); reflexivity.
  - destruct data; reflexivity.
  - reflexivity.
Qed.

(** C8, as amended.  Once the fetch is past the cache: a URL that the HTTP
    library rejects with [InvalidURL] yields [None]; a response whose body
    is not JSON raises [OpenBankingException] whatever its status code; a
    transport failure that is no [ValueError], such as a timeout or a
    refused connection, yields [None]; and with a cache entry to write, a
    response with a JSON body is returned whatever its status code. *)
Theorem fetchUrl_failure_modes (w w1 : world) (url : string)
    (cacheDir entry : option string) :
  cache_lookup w url cacheDir = (w1, Return (Missed entry)) ->
  (network w url = Fails InvalidURL ->
     fetchUrl w url cacheDir = (with_request w1 url, Return JNull)) /\
  (forall status, network w url = Responds status None ->
     fetchUrl w url cacheDir
       = (with_request w1 url, Raise OpenBankingException)) /\
  (forall e, network w url = Fails e -> is_ValueError e = false ->
     fetchUrl w url cacheDir = (with_request w1 url, Return JNull)) /\
  (forall status data path,
     network w url = Responds status (Some data) -> entry = Some path ->
     (fetchUrl w url cacheDir).2 = Return data).
Proof.
  intros Hmiss.
  destruct (cache_lookup_network _ _ _ _ _ Hmiss) as [Hnet _].
  unfold fetchUrl, fetch_try. rewrite Hmiss, Hnet.
  split; [|split; [|split]].
  - intros ->. reflexivity.
  - intros status ->. reflexivity.
  - intros e -> He. simpl. rewrite He.
    destruct (is_InvalidURL e); reflexivity.
  - intros status data path -> ->.
    destruct (is_none data); [reflexivity|].
    unfold write_json. simpl.
    rewrite (cache_lookup_missed _ _ _ _ _ Hmiss). reflexivity.
Qed.

(** The second element the walker yields for a page with a next link is a
    generator object, and the next page is not fetched. *)
Lemma fetchUrlPages_yields_generator (w w1 : world) (url : string)
    (cacheDir : option string) (items data : list (string * json))
    (next : string) :
  fetchUrl w url cacheDir = (w1, Return (JDict items)) ->
  dict_get "data" items = Some (JDict data) ->
  get (JDict (dict_set "data" (JDict (dict_set "endPoint" (JStr url) data)) items))
      "links.next" false TStr = Return (PJson (JStr next)) ->
  startswith next "http://" || startswith next "https://" = true ->
  fetchUrlPages w url cacheDir
    = (w1, ([PageData (JDict (dict_set "endPoint" (JStr url) data));
             PageGenerator next cacheDir], None)).
Proof.
  intros Hfetch Hdata Hnext Hhttp. unfold fetchUrlPages.
  rewrite Hfetch, Hdata. simpl setitem. cbv iota beta. rewrite Hnext, Hhttp.
  reflexivity.
Qed.

(** A run of the walker yields two elements at most. *)
Lemma fetchUrlPages_at_most_two (w : world) (url : string)
    (cacheDir : option string) :
  (length (fetchUrlPages w url cacheDir).2.1 <= 2)%nat.
Proof.
  unfold fetchUrlPages.
  repeat case_match; simpl; lia.
Qed.

End FetcherFailureFacts.

Section FetcherExamples.
#[local] Existing Instance Example.runtime.

(** C8 as stated fails: a response with status 404 and a body that is not
    JSON raises [OpenBankingException], with a cache and without one. *)
Lemma fetchUrl_404_raises :
  network fresh_world "https://bank.example/gone" = Responds 404 None /\
  (fetchUrl fresh_world "https://bank.example/gone" (Some "cache")).2
    = Raise OpenBankingException /\
  (fetchUrl fresh_world "https://bank.example/gone" None).2
    = Raise OpenBankingException.
Proof. repeat split; reflexivity. Qed.

Lemma fetchUrl_failure_modes_witness :
  fetchUrl fresh_world "http://" None
    = (with_request fresh_world "http://", Return JNull) /\
  fetchUrl fresh_world "https://bank.example/gone" None
    = (with_request fresh_world "https://bank.example/gone",
       Raise OpenBankingException) /\
  fetchUrl fresh_world "https://bank.example/slow" None
    = (with_request fresh_world "https://bank.example/slow", Return JNull) /\
  (fetchUrl fresh_world page1_url (Some "cache")).2 = Return page1_root.
Proof.
  split; [|split; [|split]].
  - apply (fetchUrl_failure_modes fresh_world fresh_world "http://" None None);
      reflexivity.
  - apply (fetchUrl_failure_modes fresh_world fresh_world
             "https://bank.example/gone" None None eq_refl) with (status := 404).
    reflexivity.
  - apply (fetchUrl_failure_modes fresh_world fresh_world
             "https://bank.example/slow" None None eq_refl) with (e := Timeout);
      reflexivity.
  - apply (fetchUrl_failure_modes fresh_world
             (cache_lookup fresh_world page1_url (Some "cache")).1
             page1_url (Some "cache") (Some page1_cache_path))
      with (status := 200) (path := page1_cache_path); reflexivity.
Defined.

(** C2 fails on the code: without a cache directory a fetch whose
    response is the JSON document [page1_root] returns [None]. *)
Theorem fetchUrl_without_cache_returns_None :
  network fresh_world page1_url = Responds 200 (Some page1_root) /\
  page1_root <> JNull /\
  (fetchUrl fresh_world page1_url None).2 = Return JNull.
Proof.
  split; [reflexivity|]. split; [discriminate|].
  rewrite fetchUrl_without_cache. reflexivity.
Qed.

(** C1 fails on the code: for a first page whose [links.next] is an
    [https] URL, the walker yields the first page and then a generator
    object, not the pages of the next URL, which is never requested. *)
Theorem fetchUrlPages_second_element_is_generator :
  (fetchUrlPages fresh_world page1_url (Some "cache")).2
    = ([PageData (JDict [("brand", JDict [("name", JStr "Bank")]);
                         ("endPoint", JStr page1_url)]);
        PageGenerator page2_url (Some "cache")], None) /\
  requested (fetchUrlPages fresh_world page1_url (Some "cache")).1
    = [page1_url].
Proof. split; reflexivity. Qed.

End FetcherExamples.

(** ** Products *)

Section ProdutosFacts.
Context {R : Runtime}.

(** The key scan keeps the previous company's key when the company has
    none of the keys. *)
Lemma scan_keys_dict (keys : list string) (d : list (string * json))
    (key : option string) :
  scan_keys keys (JDict d) key
    = Return (match find (fun k => dict_has k d) keys with
              | Some k => Some k
              | None => key
              end).
Proof.
  induction keys as [|k keys IH]; simpl; [reflexivity|].
  destruct (dict_has k d); [reflexivity|exact IH].
Qed.

(** Once some company has set the key, a later company that has none of
    the twelve keys is subscripted with it, which raises [KeyError]. *)
Lemma companies_loop_stale_key (page : json) (k : string)
    (d : list (string * json)) (rest : list json) :
  In k product_keys ->
  find (fun k' => dict_has k' d) product_keys = None ->
  companies_loop page (Some k) (JDict d :: rest) = ([], Some KeyError).
Proof.
  intros Hk Hnone. cbn [companies_loop].
  rewrite scan_keys_dict, Hnone.
  pose proof (find_none _ _ Hnone k Hk) as Habsent. cbn beta in Habsent.
  unfold dict_has in Habsent. unfold subscript.
  destruct (dict_get k d); [discriminate|reflexivity].
Qed.

(** A company without any of the keys is skipped as long as no company
    before it has set the key. *)
Lemma companies_loop_skip (page : json) (d : list (string * json))
    (rest : list json) :
  find (fun k' => dict_has k' d) product_keys = None ->
  companies_loop page None (JDict d :: rest) = companies_loop page None rest.
Proof.
  intros Hnone. cbn [companies_loop]. rewrite scan_keys_dict, Hnone.
  reflexivity.
Qed.

Lemma dict_get_set_ne (k k' : string) (v : json) (d : list (string * json)) :
  k <> k' -> dict_get k (dict_set k' v d) = dict_get k d.
Proof.
  intros Hne. induction d as [|[k0 v0] d IH]; simpl.
  - destruct (String.eqb_spec k k'); [contradiction|reflexivity].
  - destruct (String.eqb_spec k' k0) as [->|Hk0]; simpl.
    + destruct (String.eqb_spec k k0); [contradiction|reflexivity].
    + destruct (String.eqb_spec k k0); [reflexivity|exact IH].
Qed.

(** The sequence number is read at the top of the item, where the loop
    over the rate entries writes nothing. *)
Lemma jurosSeq_of_dict (d : list (string * json)) :
  jurosSeq_of (JDict d)
    = match dict_get "interestSequence" d with
      | None | Some JNull => Return (PJson (JInt 1))
      | Some v => match py_int v with
                  | Return z => Return (PJson (JInt z))
                  | Raise _ => Return (PJson (JInt 1))
                  end
      end.
Proof.
  unfold jurosSeq_of, get, get_try. simpl.
  destruct (dict_get "interestSequence" d) as [v|]; [|reflexivity].
  destruct v; simpl; try reflexivity; case_runtime; reflexivity.
Qed.

Lemma store_rate_jurosSeq (place : rates_place) (item : json) (i : nat)
    (rate : json) :
  jurosSeq_of (store_rate place item i rate) = jurosSeq_of item.
Proof.
  destruct item as [| | | | | |d]; destruct place; simpl; try reflexivity.
  - unfold replace_list_entry.
    destruct (dict_get "interestRates" d) as [[| | | | |l|]|]; try reflexivity.
    rewrite !jurosSeq_of_dict, dict_get_set_ne by discriminate. reflexivity.
  - destruct (dict_get "interest" d); [|reflexivity].
    rewrite !jurosSeq_of_dict, dict_get_set_ne by discriminate. reflexivity.
Qed.

Lemma Produto_init_dados (key : string) (data interestRate : json) (p : Produto) :
  Produto_init key data interestRate = Return p -> produto_dados p = data.
Proof.
  unfold Produto_init, bind. intros H.
  repeat case_match; simplify_eq; reflexivity.
Qed.

(** Every product that the loop over the rate entries yields has the
    sequence number of the item itself. *)
Lemma rates_loop_jurosSeq (key : string) (place : rates_place)
    (rates : list json) :
  forall item i seq p,
    p ∈ (rates_loop key place item i seq rates).1.1 ->
    jurosSeq p = jurosSeq_of item.
Proof.
  induction rates as [|rate rest IH]; intros item i seq p; simpl.
  - intros H. inversion H.
  - destruct (setitem rate "interestSequence" (JInt (seq + 1))) as [rate'|e];
      [|intros H; inversion H].
    destruct (Produto_init key (store_rate place item i rate') rate')
      as [q|e] eqn:Hq; [|intros H; inversion H].
    destruct (rates_loop key place (store_rate place item i rate') (S i)
                (seq + 1) rest) as [[ps item''] r] eqn:Hloop.
    simpl. intros Hin. apply elem_of_cons in Hin as [->|Hin].
    + unfold jurosSeq. rewrite (Produto_init_dados _ _ _ _ Hq).
      apply store_rate_jurosSeq.
    + rewrite <- (store_rate_jurosSeq place item i rate').
      apply (IH _ (S i) (seq + 1)). rewrite Hloop. exact Hin.
Qed.

Lemma store_rate_is_dict (place : rates_place) (item : json) (i : nat)
    (rate : json) :
  is_dict (store_rate place item i rate) = is_dict item.
Proof.
  destruct item as [| | | | | |d]; destruct place; simpl; try reflexivity.
  - unfold replace_list_entry.
    destruct (dict_get "interestRates" d) as [[| | | | |l|]|]; reflexivity.
  - destruct (dict_get "interest" d); reflexivity.
Qed.

Lemma Produto_init_plain (key : string) (item : json) (d : list (string * json)) :
  is_dict item = true -> dict_has "applications" d = false ->
  exists p, Produto_init key item (JDict d) = Return p.
Proof.
  intros Hitem Happs. unfold Produto_init, DataObject_init.
  rewrite Hitem. cbn [bind is_none].
  repeat (rewrite optional_get; cbn [bind]).
  cbn [py_in bind]. rewrite Happs. cbn [bind].
  repeat (rewrite optional_get; cbn [bind]). eauto.
Qed.

(** Rate entries that are plain dicts give one product each, and the loop
    ends without an exception. *)
Lemma rates_loop_yields_all (key : string) (place : rates_place)
    (rates : list json) :
  Forall plain_rate rates ->
  forall item i seq,
    is_dict item = true ->
    length (rates_loop key place item i seq rates).1.1 = length rates /\
    (rates_loop key place item i seq rates).2 = None.
Proof.
  induction 1 as [|rate rest (d & -> & Happs) _ IH]; intros item i seq Hitem.
  - split; reflexivity.
  - simpl.
    destruct (Produto_init_plain key (store_rate place item i
                (JDict (dict_set "interestSequence" (JInt (seq + 1)) d)))
                (dict_set "interestSequence" (JInt (seq + 1)) d)) as [p Hp].
    + rewrite store_rate_is_dict. exact Hitem.
    + unfold dict_has in *. rewrite dict_get_set_ne by discriminate.
      exact Happs.
    + rewrite Hp.
      destruct (IH (store_rate place item i
                  (JDict (dict_set "interestSequence" (JInt (seq + 1)) d)))
                  (S i) (seq + 1)) as [Hlen Hend].
      { rewrite store_rate_is_dict. exact Hitem. }
      destruct (rates_loop key place _ (S i) (seq + 1) rest) as [[ps item''] r].
      simpl in *. split; congruence.
Qed.

(** An item whose [interest] is a dict without a [rates] list, and that
    has no [interestRates] list, yields no product. *)
Lemma produtos_item_interest_without_rates (key : string) (page : json)
    (endPoint : json) (d interest : list (string * json)) :
  subscript page "endPoint" = Return endPoint ->
  list_field (JDict (dict_set "endPoint" endPoint d)) "interestRates" = Return None ->
  dict_get "interest" d = Some (JDict interest) ->
  list_field (JDict interest) "rates" = Return None ->
  produtos_item key page (JDict d)
    = ([], JDict (dict_set "endPoint" endPoint d), None).
Proof.
  intros Hep Hrates Hinterest Hnone. unfold produtos_item.
  rewrite Hep. simpl setitem. cbv iota beta. rewrite Hrates.
  unfold dict_field. simpl. unfold dict_has.
  rewrite dict_get_set_ne, Hinterest by discriminate. simpl.
  rewrite Hnone. reflexivity.
Qed.

End ProdutosFacts.

Section ProdutosExamples.
#[local] Existing Instance Example.runtime.

(** C3 fails on the code: an item whose [interest] is a dict without a
    [rates] list, and that has no [interestRates] list, yields no product
    where the claim has exactly one. *)
Theorem interest_without_rates_yields_nothing :
  list_field loan_interest_without_rates "interestRates" = Return None /\
  (let* interest := subscript loan_interest_without_rates "interest" in
   list_field interest "rates") = Return None /\
  produtos_page page_interest_without_rates = ([], None).
Proof. repeat split; reflexivity. Qed.

(** C4 fails on the code: the second of three companies has none of the
    twelve keys; the generator yields the product of the first company and
    then raises [KeyError], so the third company is never processed. *)
Theorem company_without_keys_raises :
  (produtos_page three_companies).2 = Some KeyError /\
  map produto_key (produtos_page three_companies).1 = ["personalLoans"].
Proof. split; reflexivity. Qed.

(** C6 fails on the code: an item with two interest-rate entries yields two
    products, and the sequence number of both is 1. *)
Theorem two_rates_same_jurosSeq :
  (produtos_page page_two_rates).2 = None /\
  length (produtos_page page_two_rates).1 = 2%nat /\
  map jurosSeq (produtos_page page_two_rates).1
    = [Return (PJson (JInt 1)); Return (PJson (JInt 1))].
Proof. repeat split; reflexivity. Qed.

(** The entries themselves carry the numbers 1 and 2 that [jurosSeq] does
    not read. *)
Example two_rates_entries_are_numbered :
  (fun p => let* rates := subscript (produto_dados p) "interestRates" in
            let* entries := py_iter rates in
            Return (map (fun e => optional e "interestSequence" TInt) entries))
    <$> last (produtos_page page_two_rates).1
  = Some (Return [PJson (JInt 1); PJson (JInt 2)]).
Proof. reflexivity. Qed.

End ProdutosExamples.

(** ** The CSV field writer *)

Section CsvFieldFacts.
Context {R : Runtime}.

Lemma append_cons (a : ascii) (s t : string) :
  String a s +:+ t = String a (s +:+ t).
Proof. reflexivity. Qed.

Lemma append_nil (t : string) : "" +:+ t = t.
Proof. reflexivity. Qed.

Lemma unquote_body_escaped (t : string) :
  unquote_body
    (replace_char double_quote
       (String double_quote (String double_quote EmptyString)) t
     +:+ String double_quote EmptyString) = Some t.
Proof.
  induction t as [|a t IH].
  - cbn [replace_char]. rewrite append_nil. cbn [unquote_body].
    rewrite Ascii.eqb_refl. reflexivity.
  - cbn [replace_char]. destruct (Ascii.eqb a double_quote) eqn:Ha.
    + apply Ascii.eqb_eq in Ha as ->.
      rewrite !append_cons, append_nil. cbn [unquote_body].
      rewrite !Ascii.eqb_refl, IH. reflexivity.
    + rewrite !append_cons, append_nil. cbn [unquote_body].
      rewrite Ha, IH. reflexivity.
Qed.

(** X1.  A textual value other than ['NA'] is written so that reading the
    field back gives the value with every line break replaced by a space:
    double quotes inside the value survive the round trip. *)
Theorem _fix_round_trip (s : string) :
  s <> "NA" ->
  csv_unquote (_fix (JStr s)) = Some (replace_char newline " " s).
Proof.
  intros Hna. unfold _fix.
  destruct (String.eqb_spec s "NA") as [->|_]; [congruence|].
  cbn [csv_unquote]. rewrite Ascii.eqb_refl. apply unquote_body_escaped.
Qed.

Lemma occurs_app (c : ascii) (s t : string) :
  occurs c (s +:+ t) = occurs c s || occurs c t.
Proof.
  induction s as [|a s IH]; [reflexivity|].
  rewrite append_cons. cbn [occurs]. rewrite IH. apply orb_assoc.
Qed.

Lemma occurs_replaced (c : ascii) (by_ s : string) :
  occurs c by_ = false -> occurs c (replace_char c by_ s) = false.
Proof.
  intros Hby. induction s as [|a s IH]; [reflexivity|].
  cbn [replace_char]. rewrite occurs_app, IH, orb_false_r.
  destruct (Ascii.eqb a c) eqn:Ha; [exact Hby|].
  cbn. rewrite Ha. reflexivity.
Qed.

Lemma occurs_replace_other (c c' : ascii) (by_ s : string) :
  occurs c by_ = false -> occurs c s = false ->
  occurs c (replace_char c' by_ s) = false.
Proof.
  intros Hby. induction s as [|a s IH]; [reflexivity|].
  cbn [replace_char occurs]. intros H. apply orb_false_iff in H as [Ha Hs].
  rewrite occurs_app, (IH Hs), orb_false_r.
  destruct (Ascii.eqb a c'); [exact Hby|]. cbn. rewrite Ha. reflexivity.
Qed.

(** X2.  The field written for a textual value holds no line break, so a
    value cannot end the row it is written in. *)
Theorem _fix_single_line (s : string) :
  occurs newline (_fix (JStr s)) = false.
Proof.
  unfold _fix. destruct (String.eqb s "NA"); [reflexivity|].
  cbn [occurs]. rewrite occurs_app, occurs_replace_other; try reflexivity.
  apply occurs_replaced. reflexivity.
Qed.

End CsvFieldFacts.

Section CsvFieldExamples.
#[local] Existing Instance Example.runtime.

Lemma _fix_round_trip_witness :
  csv_unquote (_fix (JStr quoted_text))
    = Some ("Ag" +:+ String double_quote ("Centro" +:+ String double_quote
              " 1 andar")).
Proof. apply (_fix_round_trip quoted_text). discriminate. Defined.

End CsvFieldExamples.

(** ** The digits-only extractor *)

Section DigitsOnlyFacts.
Context {R : Runtime}.

Lemma digits_only_app (s t : string) :
  digits_only (s +:+ t) = digits_only s +:+ digits_only t.
Proof.
  induction s as [|a s IH]; [reflexivity|].
  rewrite append_cons. cbn [digits_only].
  destruct (is_digit a); rewrite IH; reflexivity.
Qed.

(** The textual lookup of a value that is there. *)
Lemma get_str_at (d : json) (key : string) (v : json) :
  value_at d (split_on "." key) = Some v -> v <> JNull ->
  get d key false TStr = Return (PJson (JStr (py_str v))).
Proof.
  intros Hat Hv. unfold get, get_try.
  rewrite (walk_reaches _ _ _ Hat Hv). reflexivity.
Qed.

(** X3.  Text without digits inside a value does not change what [getInt]
    returns: punctuation and spaces are ignored wherever they stand. *)
Theorem getInt_ignores_separators (d d' : json) (key key' : string)
    (a sep b : string) :
  digits_only sep = "" ->
  value_at d (split_on "." key) = Some (JStr (a +:+ sep +:+ b)) ->
  value_at d' (split_on "." key') = Some (JStr (a +:+ b)) ->
  getInt d key = getInt d' key'.
Proof.
  intros Hsep Hd Hd'. unfold getInt.
  rewrite (get_str_at _ _ _ Hd), (get_str_at _ _ _ Hd') by discriminate.
  cbn [py_str]. rewrite !digits_only_app, Hsep, append_nil. reflexivity.
Qed.

(** X4.  [getInt] drops the sign of a negative number: the values [z] and
    [-z] give the same result. *)
Theorem getInt_drops_sign (d d' : json) (key key' : string) (z : Z) :
  value_at d (split_on "." key) = Some (JInt z) ->
  value_at d' (split_on "." key') = Some (JInt (- z)) ->
  getInt d key = getInt d' key'.
Proof.
  intros Hd Hd'. unfold getInt.
  rewrite (get_str_at _ _ _ Hd), (get_str_at _ _ _ Hd') by discriminate.
  destruct z as [|p|p]; reflexivity.
Qed.

End DigitsOnlyFacts.

Section DigitsOnlyExamples.
#[local] Existing Instance Example.runtime.

Lemma getInt_ignores_separators_witness :
  getInt (JDict [("postalAddress", JDict [("postCode", JStr "01310-100")])])
         "postalAddress.postCode"
    = getInt (JDict [("postCode", JStr "01310100")]) "postCode" /\
  getInt (JDict [("postCode", JStr "01310100")]) "postCode" = Some 1310100.
Proof.
  split; [|reflexivity].
  apply (getInt_ignores_separators _ _ _ _ "01310" "-" "100"); reflexivity.
Defined.

Lemma getInt_drops_sign_witness :
  getInt (JDict [("code", JInt (-42))]) "code"
    = getInt (JDict [("code", JInt 42)]) "code" /\
  getInt (JDict [("code", JInt 42)]) "code" = Some 42.
Proof.
  split; [|reflexivity].
  apply (getInt_drops_sign _ _ _ _ (-42)); reflexivity.
Defined.

End DigitsOnlyExamples.

(** ** Participants and the directory *)

Section ParticipantFacts.
Context {R : Runtime}.

Lemma list_field_raises (x : json) (k : string) (e : exn) :
  list_field x k = Raise e -> e = TypeError.
Proof.
  unfold list_field, py_in, subscript, dict_has.
  destruct x; cbn [bind]; intros H;
    repeat (first [case_match | progress cbn [bind] in *]); simplify_eq;
    reflexivity.
Qed.

Lemma str_field_raises (x : json) (k : string) (e : exn) :
  str_field x k = Raise e -> e = TypeError.
Proof.
  unfold str_field, py_in, subscript, dict_has.
  destruct x; cbn [bind]; intros H;
    repeat (first [case_match | progress cbn [bind] in *]); simplify_eq;
    reflexivity.
Qed.

Lemma discovery_loop_raises (endPoints : list json) (e : exn) :
  discovery_loop endPoints = Raise e -> e = TypeError.
Proof.
  induction endPoints as [|x rest IH]; cbn [discovery_loop]; [discriminate|].
  destruct (str_field x "ApiEndpoint") as [found|e'] eqn:Hf; cbn [bind].
  - destruct (discovery_loop rest); cbn [bind]; [discriminate|].
    intros [= <-]. apply IH. reflexivity.
  - intros [= <-]. eapply str_field_raises, Hf.
Qed.

Lemma resources_loop_raises (apis : list json) (e : exn) :
  resources_loop apis = Raise e -> e = TypeError.
Proof.
  induction apis as [|x rest IH]; cbn [resources_loop]; [discriminate|].
  destruct (list_field x "ApiDiscoveryEndpoints") as [found|e'] eqn:Hf;
    cbn [bind]; [|intros [= <-]; eapply list_field_raises, Hf].
  destruct found as [endPoints|]; cbn [bind].
  - destruct (discovery_loop endPoints) eqn:Hd; cbn [bind];
      [|intros [= <-]; eapply discovery_loop_raises, Hd].
    destruct (resources_loop rest); cbn [bind]; [discriminate|].
    intros [= <-]. apply IH. reflexivity.
  - destruct (resources_loop rest); cbn [bind]; [discriminate|].
    intros [= <-]. apply IH. reflexivity.
Qed.

Lemma servers_loop_raises (servers : list json) (e : exn) :
  servers_loop servers = Raise e -> e = TypeError.
Proof.
  induction servers as [|x rest IH]; cbn [servers_loop]; [discriminate|].
  destruct (list_field x "ApiResources") as [found|e'] eqn:Hf;
    cbn [bind]; [|intros [= <-]; eapply list_field_raises, Hf].
  destruct found as [apis|]; cbn [bind].
  - destruct (resources_loop apis) eqn:Hd; cbn [bind];
      [|intros [= <-]; eapply resources_loop_raises, Hd].
    destruct (servers_loop rest); cbn [bind]; [discriminate|].
    intros [= <-]. apply IH. reflexivity.
  - destruct (servers_loop rest); cbn [bind]; [discriminate|].
    intros [= <-]. apply IH. reflexivity.
Qed.

(** X5.  Constructing a participant raises [InvalidDataException] exactly
    when the record is not a dict holding a list under
    [AuthorisationServers]; the only other error it can raise is
    [TypeError]. *)
Theorem Participante_init_errors (data : json) :
  (Participante_init data = Raise InvalidDataException <-> ~ has_servers data) /\
  (forall e, Participante_init data = Raise e ->
             e = InvalidDataException \/ e = TypeError).
Proof.
  unfold Participante_init, DataObject_init, has_servers.
  destruct data as [| | | | | |d]; cbn [is_dict bind py_in];
    try (split; [split; [intros _ (d0 & l0 & [=] & _)|intros _; reflexivity]
                |intros e [= <-]; auto]).
  unfold dict_has, subscript.
  destruct (dict_get "AuthorisationServers" d) as [v|] eqn:Hv; cbn [negb bind].
  - destruct v as [| | | | |l|];
      try (split; [split; [intros _ (d' & l' & [= <-] & Hl); congruence
                          |intros _; reflexivity]
                  |intros e [= <-]; auto]).
    destruct (servers_loop l) as [found|e'] eqn:Hs; cbn [bind].
    + split; [split; [discriminate|intros []; eauto]|discriminate].
    + pose proof (servers_loop_raises _ _ Hs) as ->.
      split; [split; [discriminate|intros []; eauto]|intros e [= <-]; auto].
  - split; [split; [intros _ (d' & l' & [= <-] & Hl); congruence
                   |intros _; reflexivity]
           |intros e [= <-]; auto].
Qed.

End ParticipantFacts.

Section DirectoryFacts.
Context {R : Runtime}.

Lemma dict_get_set_eq (k : string) (v : json) (d : list (string * json)) :
  dict_get k (dict_set k v d) = Some v.
Proof.
  induction d as [|[k0 v0] d IH]; simpl.
  - rewrite String.eqb_refl. reflexivity.
  - destruct (String.eqb_spec k k0) as [->|Hk0]; simpl.
    + rewrite String.eqb_refl. reflexivity.
    + destruct (String.eqb_spec k k0); [contradiction|exact IH].
Qed.

Lemma servers_loop_app (l1 l2 : list json) :
  servers_loop (l1 ++ l2)
    = (let* a := servers_loop l1 in
       let* b := servers_loop l2 in
       Return (a ++ b)%list).
Proof.
  induction l1 as [|x l1 IH]; cbn [servers_loop app bind].
  - destruct (servers_loop l2); reflexivity.
  - rewrite IH.
    destruct (list_field x "ApiResources") as [[apis|]|e]; cbn [bind];
      try reflexivity.
    + destruct (resources_loop apis); cbn [bind]; [|reflexivity].
      destruct (servers_loop l1); cbn [bind]; [|reflexivity].
      destruct (servers_loop l2); cbn [bind]; [|reflexivity].
      rewrite app_assoc. reflexivity.
    + destruct (servers_loop l1); cbn [bind]; [|reflexivity].
      destruct (servers_loop l2); reflexivity.
Qed.

Lemma Participante_init_servers (d : list (string * json)) (l : list json) :
  Participante_init (JDict (dict_set "AuthorisationServers" (JList l) d))
    = (let* found := servers_loop l in
       Return {| participante_dados :=
                   JDict (dict_set "AuthorisationServers" (JList l) d);
                 _endpoints := found |}).
Proof.
  unfold Participante_init, DataObject_init, py_in, subscript, dict_has.
  cbn [is_dict bind]. rewrite dict_get_set_eq. reflexivity.
Qed.

(** X6.  The endpoints of a participant are collected server by server in
    the order of the record: with the servers [l1 ++ l2] the participant
    has the endpoints found with [l1] followed by those found with [l2]. *)
Theorem Participante_init_servers_append (d : list (string * json))
    (l1 l2 : list json) (p1 p2 : Participante) :
  Participante_init (JDict (dict_set "AuthorisationServers" (JList l1) d))
    = Return p1 ->
  Participante_init (JDict (dict_set "AuthorisationServers" (JList l2) d))
    = Return p2 ->
  Participante_init
      (JDict (dict_set "AuthorisationServers" (JList (l1 ++ l2)) d))
    = Return {| participante_dados :=
                  JDict (dict_set "AuthorisationServers" (JList (l1 ++ l2)) d);
                _endpoints := (_endpoints p1 ++ _endpoints p2)%list |}.
Proof.
  rewrite !Participante_init_servers, servers_loop_app.
  destruct (servers_loop l1) as [a|]; cbn [bind]; [|discriminate].
  destruct (servers_loop l2) as [b|]; cbn [bind]; [|discriminate].
  intros [= <-] [= <-]. reflexivity.
Qed.

(** X7.  Without a cache directory the directory client never yields a
    participant: whatever the directory server answers, it requests the
    directory once and raises [OpenBankingException]. *)
Theorem participantes_without_cache (w : world) :
  participantes w None
    = (with_request w directory_url, ([], Some OpenBankingException)).
Proof.
  unfold participantes. rewrite fetchUrl_without_cache.
  destruct (network w directory_url) as [e|status [data|]]; try reflexivity.
  destruct (is_InvalidURL e); [reflexivity|].
  destruct (is_ValueError e); reflexivity.
Qed.

Lemma participantes_loop_app (good tail : list json) (ps : list Participante) :
  all_construct good ps ->
  participantes_loop (good ++ tail)
    = ((ps ++ (participantes_loop tail).1)%list, (participantes_loop tail).2).
Proof.
  induction 1 as [|r p good ps Hr _ IH]; cbn [participantes_loop app].
  - destruct (participantes_loop tail); reflexivity.
  - rewrite Hr, IH. reflexivity.
Qed.

(** X8.  When the directory document is a list, the client yields the
    participants of its records in order; a record that does not construct
    ends the sequence with its error, after the participants before it. *)
Theorem participantes_until_failure (w w1 : world) (cacheDir : option string)
    (good tail : list json) (ps : list Participante) (r : option exn) :
  fetchUrl w directory_url cacheDir = (w1, Return (JList (good ++ tail))) ->
  all_construct good ps ->
  (tail = [] /\ r = None) \/
  (exists bad rest e,
     tail = bad :: rest /\ Participante_init bad = Raise e /\ r = Some e) ->
  participantes w cacheDir = (w1, (ps, r)).
Proof.
  intros Hfetch Hgood Htail. unfold participantes. rewrite Hfetch.
  rewrite (participantes_loop_app good tail ps Hgood).
  destruct Htail as [[-> ->]|(bad & rest & e & -> & Hbad & ->)].
  - cbn. rewrite app_nil_r. reflexivity.
  - cbn [participantes_loop]. rewrite Hbad. cbn. rewrite app_nil_r.
    reflexivity.
Qed.

(** X9.  The property [cnpj] of a participant whose registration number is
    a text: 0 when the text has no digit, otherwise what [getInt] reads
    from the same field. *)
Theorem cnpj_agrees_with_getInt (p : Participante) (d : list (string * json))
    (s : string) (z : Z) :
  participante_dados p = JDict d ->
  dict_get "RegistrationNumber" d = Some (JStr s) ->
  (digits_only s = "" -> cnpj p = Return 0) /\
  (digits_only s <> "" ->
   getInt (participante_dados p) "RegistrationNumber" = Some z ->
   cnpj p = Return z).
Proof.
  intros Hd Hs. unfold cnpj, getInt, get, get_try, subscript.
  rewrite Hd. cbn. rewrite Hs. cbn. split.
  - intros ->. reflexivity.
  - intros Hne Hz. destruct (String.eqb_spec (digits_only s) ""); [contradiction|].
    rewrite Hz. reflexivity.
Qed.

End DirectoryFacts.

Section DirectoryExamples.
#[local] Existing Instance Example.runtime.

Lemma Participante_init_servers_append_witness :
  _endpoints <$> (match Participante_init
                          (JDict (bank_record ([server_a] ++ [server_b]))) with
                  | Return p => Some p
                  | Raise _ => None
                  end)
    = Some [ "https://a.example/open-banking/channels/v1/branches";
             "https://a.example/open-banking/products-services/v1/personal-loans";
             "https://b.example/open-banking/channels/v1/branches" ].
Proof.
  pose proof (Participante_init_servers_append (bank_record []) [server_a] [server_b]
             {| participante_dados := JDict (bank_record [server_a]);
                _endpoints := [ "https://a.example/open-banking/channels/v1/branches";
                                "https://a.example/open-banking/products-services/v1/personal-loans" ] |}
             {| participante_dados := JDict (bank_record [server_b]);
                _endpoints := [ "https://b.example/open-banking/channels/v1/branches" ] |}
             eq_refl eq_refl) as H.
  change (dict_set "AuthorisationServers" (JList ([server_a] ++ [server_b]))
            (bank_record []))
    with (bank_record ([server_a] ++ [server_b])) in H.
  rewrite H. reflexivity.
Defined.

Lemma participantes_until_failure_witness :
  (participantes (directory_world (JList [JDict (bank_record [server_a]);
                                          JDict [("OrganisationId", JStr "x")];
                                          JDict (bank_record [server_b])]))
                 (Some "cache")).2
    = ([ {| participante_dados := JDict (bank_record [server_a]);
            _endpoints := [ "https://a.example/open-banking/channels/v1/branches";
                            "https://a.example/open-banking/products-services/v1/personal-loans" ] |} ],
       Some InvalidDataException).
Proof.
  rewrite (participantes_until_failure
             (directory_world (JList [JDict (bank_record [server_a]);
                                      JDict [("OrganisationId", JStr "x")];
                                      JDict (bank_record [server_b])]))
             (fetchUrl (directory_world (JList [JDict (bank_record [server_a]);
                                      JDict [("OrganisationId", JStr "x")];
                                      JDict (bank_record [server_b])]))
                       directory_url (Some "cache")).1
             (Some "cache")
             [JDict (bank_record [server_a])]
             [JDict [("OrganisationId", JStr "x")]; JDict (bank_record [server_b])]
             [ {| participante_dados := JDict (bank_record [server_a]);
                  _endpoints := [ "https://a.example/open-banking/channels/v1/branches";
                                  "https://a.example/open-banking/products-services/v1/personal-loans" ] |} ]
             (Some InvalidDataException)).
  - reflexivity.
  - reflexivity.
  - constructor; [reflexivity|constructor].
  - right. exists (JDict [("OrganisationId", JStr "x")]),
      [JDict (bank_record [server_b])], InvalidDataException.
    repeat split.
Defined.

Lemma cnpj_agrees_with_getInt_witness :
  cnpj {| participante_dados := JDict (bank_record []); _endpoints := [] |}
    = Return 12345678000190 /\
  cnpj {| participante_dados := JDict [("RegistrationNumber", JStr "n/a")];
          _endpoints := [] |} = Return 0.
Proof.
  split.
  - apply (cnpj_agrees_with_getInt _ (bank_record []) "12.345.678/0001-90");
      [reflexivity|reflexivity|discriminate|reflexivity].
  - destruct (cnpj_agrees_with_getInt
                {| participante_dados := JDict [("RegistrationNumber", JStr "n/a")];
                   _endpoints := [] |}
                [("RegistrationNumber", JStr "n/a")] "n/a" 0 eq_refl eq_refl)
      as [Hzero _].
    exact (Hzero eq_refl).
Defined.

End DirectoryExamples.

(** ** Further facts on the fetcher and its cache *)

Section FetcherFurtherFacts.
Context {R : Runtime}.

Lemma cache_lookup_requested (w w1 : world) (url : string)
    (cacheDir : option string) (r : outcome cache_step) :
  cache_lookup w url cacheDir = (w1, r) -> requested w1 = requested w.
Proof. intros H. apply (cache_lookup_network _ _ _ _ _ H). Qed.

(** X10.  One call of [fetchUrl] calls the network at most once, and only
    for its own URL. *)
Theorem fetchUrl_requests_at_most_once (w : world) (url : string)
    (cacheDir : option string) :
  requested (fetchUrl w url cacheDir).1 = requested w \/
  requested (fetchUrl w url cacheDir).1 = (requested w ++ [url])%list.
Proof.
  destruct (cache_lookup w url cacheDir) as [w1 [[doc|entry]|e]] eqn:Hlookup.
  - left. unfold fetchUrl. rewrite Hlookup.
    apply (cache_lookup_requested _ _ _ _ _ Hlookup).
  - right. rewrite (fetchUrl_after_miss _ _ _ _ _ Hlookup).
    rewrite (cache_lookup_requested _ _ _ _ _ Hlookup). reflexivity.
  - left. unfold fetchUrl. rewrite Hlookup.
    apply (cache_lookup_requested _ _ _ _ _ Hlookup).
Qed.








End FetcherFurtherFacts.

Section FetcherRoundTripFacts.
Context {R : Runtime}.

(** X14.  A null document is returned but not cached: the world after the
    call differs from the one before by the request only, so the next call
    on the same day requests the URL again. *)
Theorem fetchUrl_null_not_cached (w : world) (url dir : string)
    (bytes : list ascii) (dn : node) (status : Z) :
  fs w !! dir = Some dn ->
  is_directory dn = true ->
  encode_ascii url = Return bytes ->
  fs w !! cache_entry_path dir bytes = None ->
  network w url = Responds status (Some JNull) ->
  fetchUrl w url (Some dir) = (with_request w url, Return JNull) /\
  requested (fetchUrl (fetchUrl w url (Some dir)).1 url (Some dir)).1
    = (requested w ++ [url; url])%list.
Proof.
  intros Hdir Hisdir Henc Hentry Hnet.
  assert (Hcall : forall w',
            fs w' = fs w -> network w' = network w ->
            fetchUrl w' url (Some dir) = (with_request w' url, Return JNull)).
  { intros w' Hfs Hnet'. unfold fetchUrl, cache_lookup.
    rewrite Hfs, Hdir, Hisdir, Henc.
    unfold file_was_created_today. rewrite Hfs, Hentry.
    unfold fetch_try. rewrite Hnet', Hnet. reflexivity. }
  rewrite (Hcall w eq_refl eq_refl). split; [reflexivity|].
  cbn [fst]. rewrite (Hcall (with_request w url) eq_refl eq_refl).
  cbn [fst requested with_request]. rewrite <- app_assoc. reflexivity.
Qed.

End FetcherRoundTripFacts.

Section FetcherFurtherExamples.
#[local] Existing Instance Example.runtime.




Lemma fetchUrl_null_not_cached_witness :
  fetchUrl (world_with cache_directory (directory_network JNull))
           directory_url (Some "cache")
    = (with_request (world_with cache_directory (directory_network JNull))
                    directory_url, Return JNull) /\
  requested (fetchUrl (fetchUrl (world_with cache_directory (directory_network JNull))
                                directory_url (Some "cache")).1
                      directory_url (Some "cache")).1
    = [directory_url; directory_url].
Proof.
  destruct (fetchUrl_null_not_cached
              (world_with cache_directory (directory_network JNull))
              directory_url "cache"
              (match encode_ascii directory_url with
               | Return bytes => bytes
               | Raise _ => []
               end)
              (node_at (noon - 3600) Directory) 200
              eq_refl eq_refl eq_refl eq_refl eq_refl) as [Hfirst Hsecond].
  split; [exact Hfirst|exact Hsecond].
Defined.

End FetcherFurtherExamples.

(** ** Further facts on the field accessor and on pages *)

Section AccessorLaws.
Context {R : Runtime}.

Lemma split_on_nonempty (c : ascii) (s : string) : split_on c s <> [].
Proof.
  destruct s as [|a s]; cbn [split_on]; [discriminate|].
  destruct (Ascii.eqb a c); [discriminate|].
  destruct (split_on c s); discriminate.
Qed.

Lemma split_on_dotted (a b : string) :
  split_on "." (a +:+ "." +:+ b)
    = (split_on "." a ++ split_on "." b)%list.
Proof.
  induction a as [|c a IH].
  - reflexivity.
  - rewrite append_cons. cbn [split_on].
    destruct (Ascii.eqb c "."); rewrite IH; [reflexivity|].
    pose proof (split_on_nonempty "." a) as Hne.
    destruct (split_on "." a); [contradiction|reflexivity].
Qed.

Lemma walk_app (l1 l2 : list string) :
  forall d v, walk d l1 = Return (Reached v) ->
              walk d (l1 ++ l2) = walk v l2.
Proof.
  induction l1 as [|k l1 IH]; intros d v; cbn [walk app].
  - intros [= ->]. reflexivity.
  - destruct (subscript d k) as [c|e]; [|discriminate].
    destruct c; try discriminate; apply IH.
Qed.

Lemma get_plain_reached (d : json) (key : string) (required : bool) (v : json) :
  get d key required TNone = Return (PJson v) -> v <> JNull ->
  walk d (split_on "." key) = Return (Reached v).
Proof.
  unfold get, get_try. intros H Hv.
  destruct (walk d (split_on "." key)) as [[cur|]|e].
  - cbn in H. congruence.
  - cbn in H. injection H as <-. contradiction.
  - destruct (is_ValueError e), (is_KeyError e), required; try discriminate;
      injection H as <-; contradiction.
Qed.

(** X15.  Dotted paths compose: when the path [a] leads to a value [v]
    that is not null, looking [a.b] up in the document is looking [b] up
    in [v], in either mode and for every requested type. *)
Theorem get_path_compose (d v : json) (a b : string) (required required' : bool)
    (valueType : value_type) :
  get d a required TNone = Return (PJson v) ->
  v <> JNull ->
  get d (a +:+ "." +:+ b) required' valueType = get v b required' valueType.
Proof.
  intros Ha Hv. apply get_plain_reached in Ha; [|exact Hv].
  unfold get, get_try. rewrite split_on_dotted, (walk_app _ _ _ _ Ha).
  reflexivity.
Qed.

Lemma split_on_plain (k : string) :
  occurs "." k = false -> split_on "." k = [k].
Proof.
  induction k as [|a k IH]; [reflexivity|].
  cbn [occurs split_on]. intros H. apply orb_false_iff in H as [Ha Hk].
  rewrite Ha, (IH Hk). reflexivity.
Qed.

(** X16.  What [target[k] = v] stores is what the accessor reads back
    under [k], and the values under the other keys are read as before
    (for keys without a dot). *)
Theorem get_after_setitem (target target' : json) (k k' : string) (v : json)
    (required : bool) (valueType : value_type) :
  setitem target k v = Return target' ->
  occurs "." k = false ->
  occurs "." k' = false ->
  get target' k required TNone = Return (PJson v) /\
  (k' <> k ->
   get target' k' required valueType = get target k' required valueType).
Proof.
  unfold setitem. destruct target as [| | | | | |d]; try discriminate.
  intros [= <-] Hk Hk'. unfold get, get_try.
  rewrite (split_on_plain k Hk), (split_on_plain k' Hk'). cbn [walk subscript].
  split.
  - rewrite dict_get_set_eq. destruct v; reflexivity.
  - intros Hne. rewrite dict_get_set_ne by exact Hne. reflexivity.
Qed.

(** X17.  Every page payload that the walker yields carries the URL it
    was requested from as its [endPoint]. *)
Theorem fetchUrlPages_provenance (w : world) (url : string)
    (cacheDir : option string) (data : json) :
  In (PageData data) (fetchUrlPages w url cacheDir).2.1 ->
  endPoint data = Return (JStr url).
Proof.
  unfold fetchUrlPages.
  destruct (fetchUrl w url cacheDir) as [w1 [root|e]]; [|intros []].
  destruct root as [| | | | | |items]; try (intros []).
  destruct (dict_get "data" items) as [payload|]; [|intros []].
  unfold setitem. destruct payload as [| | | | | |d]; try (intros []).
  assert (Hstamped : endPoint (JDict (dict_set "endPoint" (JStr url) d))
                     = Return (JStr url)).
  { unfold endPoint, py_in, dict_has, subscript. cbn [bind].
    rewrite dict_get_set_eq. cbn [bind]. reflexivity. }
  destruct (get _ "links.next" false TStr) as [[[| | | |next| |]|]|e];
    cbn [snd fst];
    try (intros [[= <-]|[]]; exact Hstamped).
  destruct (startswith next "http://" || startswith next "https://");
    cbn [snd fst].
  - intros [[= <-]|[[=]|[]]]. exact Hstamped.
  - intros [[= <-]|[]]. exact Hstamped.
Qed.

End AccessorLaws.

Section AccessorLawsExamples.
#[local] Existing Instance Example.runtime.

Lemma get_path_compose_witness :
  get (JDict [("postalAddress",
               JDict [("geographicCoordinates",
                       JDict [("latitude", JStr "-23.55")])])])
      "postalAddress.geographicCoordinates.latitude" true TFloat
    = get (JDict [("geographicCoordinates", JDict [("latitude", JStr "-23.55")])])
          "geographicCoordinates.latitude" true TFloat.
Proof.
  apply (get_path_compose _ _ "postalAddress" "geographicCoordinates.latitude"
           false true TFloat); [reflexivity|discriminate].
Defined.

Lemma get_after_setitem_witness :
  get (JDict [("name", JStr "Ag. Centro"); ("endPoint", JStr page1_url)])
      "endPoint" true TNone = Return (PJson (JStr page1_url)) /\
  get (JDict [("name", JStr "Ag. Centro"); ("endPoint", JStr page1_url)])
      "name" true TStr
    = get (JDict [("name", JStr "Ag. Centro")]) "name" true TStr.
Proof.
  destruct (get_after_setitem (JDict [("name", JStr "Ag. Centro")])
              (JDict [("name", JStr "Ag. Centro"); ("endPoint", JStr page1_url)])
              "endPoint" "name" (JStr page1_url) true TStr
              eq_refl eq_refl eq_refl) as [Hread Hother].
  split; [exact Hread|]. apply Hother. discriminate.
Defined.

Lemma fetchUrlPages_provenance_witness :
  endPoint (JDict [("brand", JDict [("name", JStr "Bank")]);
                   ("endPoint", JStr page1_url)])
    = Return (JStr page1_url).
Proof.
  apply (fetchUrlPages_provenance fresh_world page1_url (Some "cache")).
  left. reflexivity.
Defined.

End AccessorLawsExamples.

(** ** The walks over endpoints, pages, companies and branches *)

Section WalkFacts.
Context {R : Runtime}.

(** X18.  The agencies of a participant come from one endpoint only: the
    first of its endpoints that ends with the branches suffix is walked, and
    the endpoints after it are never looked at. *)
Theorem agencias_first_endpoint_only (w : world) (cacheDir : option string)
    (p : Participante) (skipped : list string) (ep : string)
    (later : list string) :
  _endpoints p = (skipped ++ ep :: later)%list ->
  Forall (fun e => endswith e branches_suffix = false) skipped ->
  endswith ep branches_suffix = true ->
  agencias w cacheDir p = walk_pages agencias_page w ep cacheDir.
Proof.
  intros Hp Hskipped Hep. unfold agencias. rewrite Hp. clear Hp.
  induction Hskipped as [|e skipped He _ IH]; cbn [app agencias_endpoints].
  - rewrite Hep. reflexivity.
  - rewrite He. cbn [negb]. exact IH.
Qed.

(** X19.  A walk over the pages of an endpoint processes the first page
    only: when the first page links to a next page, the next page is
    fetched, its pages are dropped, and the walk ends the way the fetch of
    the next page ends. *)
Theorem walk_pages_first_page_only {A : Type}
    (body : json -> list A * option exn) (w w1 w2 : world) (url next : string)
    (cacheDir cacheDir' : option string) (data : json) (found : list A)
    (pages : list page_item) (r : option exn) :
  fetchUrlPages w url cacheDir
    = (w1, ([PageData data; PageGenerator next cacheDir'], None)) ->
  body data = (found, None) ->
  fetchUrlPages w1 next cacheDir' = (w2, (pages, r)) ->
  walk_pages body w url cacheDir = (w2, (found, r)).
Proof.
  intros Hfirst Hbody Hnext. unfold walk_pages. rewrite Hfirst.
  cbn [pages_loop]. rewrite Hbody, Hnext.
  destruct r; rewrite app_nil_r; reflexivity.
Qed.

Lemma branches_loop_dicts (page : json) (url : json) (branches : list json) :
  subscript page "endPoint" = Return url ->
  Forall (fun b => is_dict b = true) branches ->
  branches_loop page branches = (map (stamped url) branches, None).
Proof.
  intros Hurl. induction 1 as [|b branches Hb _ IH]; [reflexivity|].
  cbn [branches_loop map]. rewrite Hurl, IH. cbn [bind].
  destruct b; try discriminate. reflexivity.
Qed.

Lemma get_branches (d : list (string * json)) (branches : list json) :
  dict_get "branches" d = Some (JList branches) ->
  get (JDict d) "branches" true TList = Return (PJson (JList branches)).
Proof.
  intros H. unfold get, get_try. cbn. rewrite H. reflexivity.
Qed.

Lemma get_branches_missing (d : list (string * json)) :
  dict_get "branches" d = None ->
  get (JDict d) "branches" true TList = Raise RequiredFieldException.
Proof.
  intros H. unfold get, get_try. cbn. rewrite H. reflexivity.
Qed.

Lemma branch_companies_loop_app (page url : json) (good tail : list json)
    (bss : list (list json)) :
  subscript page "endPoint" = Return url ->
  Forall2 company_branches good bss ->
  branch_companies_loop page (good ++ tail)
    = ((map (stamped url) (concat bss)
          ++ (branch_companies_loop page tail).1)%list,
       (branch_companies_loop page tail).2).
Proof.
  intros Hurl.
  induction 1 as [|c bs good bss (d & -> & Hd & Hbs) _ IH];
    cbn [branch_companies_loop app concat].
  - destruct (branch_companies_loop page tail); reflexivity.
  - rewrite (get_branches _ _ Hd). cbn [bind py_iter].
    rewrite (branches_loop_dicts _ _ _ Hurl Hbs), IH, map_app, <- app_assoc.
    reflexivity.
Qed.

(** X20.  A branches page yields one agency per branch, company by company
    in the order of the page, each the branch stamped with the URL of the
    page; a company without [branches] ends the sequence with
    [RequiredFieldException], after the agencies of the companies before
    it. *)
Theorem agencias_page_until_failure (page brand : list (string * json))
    (url : json) (good tail : list json) (bss : list (list json))
    (r : option exn) :
  dict_get "brand" page = Some (JDict brand) ->
  dict_get "companies" brand = Some (JList (good ++ tail)) ->
  dict_get "endPoint" page = Some url ->
  Forall2 company_branches good bss ->
  (tail = [] /\ r = None) \/
  (exists d rest,
     tail = JDict d :: rest /\ dict_get "branches" d = None /\
     r = Some RequiredFieldException) ->
  agencias_page (JDict page) = (map (stamped url) (concat bss), r).
Proof.
  intros Hbrand Hcompanies Hurl Hgood Htail.
  unfold agencias_page, py_in, subscript, dict_has.
  rewrite Hbrand, Hcompanies. cbn [bind py_iter].
  rewrite (branch_companies_loop_app (JDict page) url good tail bss);
    [|cbn; rewrite Hurl; reflexivity|exact Hgood].
  destruct Htail as [[-> ->]|(d & rest & -> & Hd & ->)].
  - cbn. rewrite app_nil_r. reflexivity.
  - cbn [branch_companies_loop]. rewrite (get_branches_missing _ Hd).
    cbn. rewrite app_nil_r. reflexivity.
Qed.

End WalkFacts.

(** ** Where the entities of a walk come from *)

Section ProvenanceFacts.
Context {R : Runtime}.

Lemma endPoint_dict (d : list (string * json)) (url : json) :
  dict_get "endPoint" d = Some url -> endPoint (JDict d) = Return url.
Proof.
  intros H. unfold endPoint, py_in, dict_has, subscript. cbn [bind].
  rewrite H. reflexivity.
Qed.

Lemma fetchUrlPages_stamps (w : world) (url : string)
    (cacheDir : option string) (data : json) :
  In (PageData data) (fetchUrlPages w url cacheDir).2.1 ->
  exists d, data = JDict d /\ dict_get "endPoint" d = Some (JStr url).
Proof.
  unfold fetchUrlPages.
  destruct (fetchUrl w url cacheDir) as [w1 [root|e]]; [|intros []].
  destruct root as [| | | | | |items]; try (intros []).
  destruct (dict_get "data" items) as [payload|]; [|intros []].
  unfold setitem. destruct payload as [| | | | | |d]; try (intros []).
  assert (Hstamped : exists d', JDict (dict_set "endPoint" (JStr url) d) = JDict d'
                                /\ dict_get "endPoint" d' = Some (JStr url)).
  { eexists. split; [reflexivity|apply dict_get_set_eq]. }
  destruct (get _ "links.next" false TStr) as [[[| | | |next| |]|]|e];
    cbn [snd fst];
    try (intros [[= <-]|[]]; exact Hstamped).
  destruct (startswith next "http://" || startswith next "https://");
    cbn [snd fst].
  - intros [[= <-]|[[=]|[]]]. exact Hstamped.
  - intros [[= <-]|[]]. exact Hstamped.
Qed.

Lemma store_rate_endPoint (place : rates_place) (item : json) (i : nat)
    (rate : json) :
  endPoint (store_rate place item i rate) = endPoint item.
Proof.
  destruct item as [| | | | | |d]; destruct place; simpl; try reflexivity.
  - unfold replace_list_entry.
    destruct (dict_get "interestRates" d) as [[| | | | |l|]|]; try reflexivity.
    unfold endPoint, py_in, dict_has, subscript.
    rewrite dict_get_set_ne by discriminate. reflexivity.
  - destruct (dict_get "interest" d); [|reflexivity].
    unfold endPoint, py_in, dict_has, subscript.
    rewrite dict_get_set_ne by discriminate. reflexivity.
Qed.

Lemma Produto_init_key (key : string) (data interestRate : json) (p : Produto) :
  Produto_init key data interestRate = Return p -> produto_key p = key.
Proof.
  unfold Produto_init, bind. intros H.
  repeat case_match; simplify_eq; reflexivity.
Qed.

Lemma rates_loop_products (key : string) (place : rates_place)
    (rates : list json) :
  forall item i seq p,
    In p (rates_loop key place item i seq rates).1.1 ->
    produto_key p = key /\ endPoint (produto_dados p) = endPoint item.
Proof.
  induction rates as [|rate rest IH]; intros item i seq p; simpl.
  - intros [].
  - destruct (setitem rate "interestSequence" (JInt (seq + 1))) as [rate'|e];
      [|intros []].
    destruct (Produto_init key (store_rate place item i rate') rate')
      as [q|e] eqn:Hq; [|intros []].
    destruct (rates_loop key place (store_rate place item i rate') (S i)
                (seq + 1) rest) as [[ps item''] r] eqn:Hloop.
    simpl. intros [<-|Hin].
    + rewrite (Produto_init_dados _ _ _ _ Hq), (Produto_init_key _ _ _ _ Hq).
      split; [reflexivity|apply store_rate_endPoint].
    + rewrite <- (store_rate_endPoint place item i rate').
      apply (IH _ (S i) (seq + 1)). rewrite Hloop. exact Hin.
Qed.

Lemma produtos_item_products (key : string) (page item : json) (p : Produto) :
  In p (produtos_item key page item).1.1 ->
  produto_key p = key /\
  endPoint (produto_dados p) = subscript page "endPoint".
Proof.
  unfold produtos_item.
  destruct (subscript page "endPoint") as [url|e]; [|intros []].
  unfold setitem. destruct item as [| | | | | |d]; try (intros []).
  assert (Hitem : endPoint (JDict (dict_set "endPoint" url d)) = Return url)
    by (apply endPoint_dict, dict_get_set_eq).
  destruct (list_field _ "interestRates") as [[rates|]|e]; [| |intros []].
  - intros Hin. apply rates_loop_products in Hin. rewrite Hitem in Hin.
    exact Hin.
  - destruct (dict_field _ "interest") as [[interest|]|e]; [| |intros []].
    + destruct (list_field interest "rates") as [[rates|]|e]; try (intros []).
      intros Hin. apply rates_loop_products in Hin. rewrite Hitem in Hin.
      exact Hin.
    + destruct (Produto_init key _ JNull) as [q|e] eqn:Hq; [|intros []].
      intros [<-|[]].
      rewrite (Produto_init_dados _ _ _ _ Hq), (Produto_init_key _ _ _ _ Hq).
      split; [reflexivity|exact Hitem].
Qed.

Lemma items_loop_products (key : string) (page : json) (items : list json)
    (p : Produto) :
  In p (items_loop key page items).1 ->
  produto_key p = key /\
  endPoint (produto_dados p) = subscript page "endPoint".
Proof.
  induction items as [|item rest IH]; cbn [items_loop]; [intros []|].
  pose proof (produtos_item_products key page item p) as Hitem.
  destruct (produtos_item key page item) as [[ps item'] [e|]]; cbn in *;
    [exact Hitem|].
  destruct (items_loop key page rest) as [qs r]. cbn in *.
  intros Hin. apply in_app_or in Hin as [Hin|Hin]; auto.
Qed.

Lemma scan_keys_result (keys : list string) (company : json)
    (key r : option string) :
  scan_keys keys company key = Return r ->
  r = key \/ exists k, r = Some k /\ In k keys.
Proof.
  induction keys as [|k keys IH]; cbn [scan_keys].
  - intros [= <-]. left. reflexivity.
  - destruct (py_in k company) as [[|]|e]; cbn [bind]; [| |discriminate].
    + intros [= <-]. right. exists k. split; [reflexivity|left; reflexivity].
    + intros H. destruct (IH H) as [->|(k' & -> & Hk')]; [left; reflexivity|].
      right. exists k'. split; [reflexivity|right; exact Hk'].
Qed.

Lemma companies_loop_products (page : json) (companies : list json)
    (p : Produto) :
  forall key,
    (forall k, key = Some k -> In k product_keys) ->
    In p (companies_loop page key companies).1 ->
    In (produto_key p) product_keys /\
    endPoint (produto_dados p) = subscript page "endPoint".
Proof.
  induction companies as [|company rest IH]; intros key Hkey;
    cbn [companies_loop]; [intros []|].
  destruct (scan_keys product_keys company key) as [[k|]|e] eqn:Hscan;
    [| |intros []].
  - assert (Hk : In k product_keys).
    { destruct (scan_keys_result _ _ _ _ Hscan) as [<-|(k' & [= <-] & Hk')];
        [apply Hkey; reflexivity|exact Hk']. }
    assert (Hnext : forall k', Some k = Some k' -> In k' product_keys)
      by (intros k' [= <-]; exact Hk).
    destruct (subscript company k) as [[| | | | |items|]|e];
      try (intros []); try (apply IH; exact Hnext).
    pose proof (items_loop_products k page items p) as Hitems.
    destruct (items_loop k page items) as [ps [e|]]; cbn in *.
    + intros Hin. destruct (Hitems Hin) as [-> Hep]. auto.
    + specialize (IH (Some k) Hnext).
      destruct (companies_loop page (Some k) rest) as [qs r]. cbn in *.
      intros Hin. apply in_app_or in Hin as [Hin|Hin]; [|auto].
      destruct (Hitems Hin) as [-> Hep]. auto.
  - apply IH. discriminate.
Qed.

Lemma produtos_page_products (page : json) (p : Produto) :
  In p (produtos_page page).1 ->
  In (produto_key p) product_keys /\
  endPoint (produto_dados p) = subscript page "endPoint".
Proof.
  unfold produtos_page.
  destruct (py_in "brand" page) as [[|]|e]; try (intros []).
  destruct (subscript page "brand") as [brand|e]; [|intros []].
  destruct (py_in "companies" brand) as [[|]|e]; try (intros []).
  destruct (let* cs := subscript brand "companies" in py_iter cs)
    as [companies|e]; [|intros []].
  apply companies_loop_products. discriminate.
Qed.

Lemma branches_loop_agencies (page : json) (branches : list json)
    (a : Agencia) :
  In a (branches_loop page branches).1 ->
  endPoint (agencia_dados a) = subscript page "endPoint".
Proof.
  induction branches as [|b rest IH]; cbn [branches_loop]; [intros []|].
  destruct (subscript page "endPoint") as [url|e]; cbn [bind]; [|intros []].
  unfold setitem. destruct b as [| | | | | |d]; try (intros []).
  cbn. destruct (branches_loop page rest) as [more r]. cbn in *.
  intros [<-|Hin]; [|auto].
  cbn. apply endPoint_dict, dict_get_set_eq.
Qed.

Lemma branch_companies_loop_agencies (page : json) (companies : list json)
    (a : Agencia) :
  In a (branch_companies_loop page companies).1 ->
  endPoint (agencia_dados a) = subscript page "endPoint".
Proof.
  induction companies as [|company rest IH]; cbn [branch_companies_loop];
    [intros []|].
  destruct (let* found := get company "branches" true TList in _)
    as [branches|e]; [|intros []].
  pose proof (branches_loop_agencies page branches a) as Hbranches.
  destruct (branches_loop page branches) as [found [e|]]; cbn in *;
    [exact Hbranches|].
  destruct (branch_companies_loop page rest) as [more r]. cbn in *.
  intros Hin. apply in_app_or in Hin as [Hin|Hin]; auto.
Qed.

Lemma agencias_page_agencies (page : json) (a : Agencia) :
  In a (agencias_page page).1 ->
  endPoint (agencia_dados a) = subscript page "endPoint".
Proof.
  unfold agencias_page.
  destruct (py_in "brand" page) as [[|]|e]; try (intros []).
  destruct (subscript page "brand") as [brand|e]; [|intros []].
  destruct (py_in "companies" brand) as [[|]|e]; try (intros []).
  destruct (let* cs := subscript brand "companies" in py_iter cs)
    as [companies|e]; [|intros []].
  apply branch_companies_loop_agencies.
Qed.

(** What a page loop finds, it finds in the payload of one of the pages. *)
Lemma pages_loop_found {A : Type} (body : json -> list A * option exn)
    (pages : list page_item) (x : A) :
  forall w,
    In x (pages_loop body w pages).2.1 ->
    exists data, In (PageData data) pages /\ In x (body data).1.
Proof.
  induction pages as [|[data|url cacheDir] rest IH]; intros w;
    cbn [pages_loop].
  - intros [].
  - destruct (body data) as [found [e|]] eqn:Hbody; cbn [snd fst].
    + intros Hin. exists data. rewrite Hbody. split; [left; reflexivity|exact Hin].
    + specialize (IH w). destruct (pages_loop body w rest) as [w' [more r]].
      cbn [snd fst] in *. intros Hin. apply in_app_or in Hin as [Hin|Hin].
      * exists data. rewrite Hbody. split; [left; reflexivity|exact Hin].
      * destruct (IH Hin) as (data' & Hdata' & Hx).
        exists data'. split; [right; exact Hdata'|exact Hx].
  - destruct (fetchUrlPages w url cacheDir) as [w' [items [e|]]];
      cbn [snd fst]; [intros []|].
    intros Hin. destruct (IH w' Hin) as (data' & Hdata' & Hx).
    exists data'. split; [right; exact Hdata'|exact Hx].
Qed.

Lemma walk_pages_found {A : Type} (body : json -> list A * option exn)
    (w : world) (url : string) (cacheDir : option string) (x : A) :
  In x (walk_pages body w url cacheDir).2.1 ->
  exists d, dict_get "endPoint" d = Some (JStr url) /\ In x (body (JDict d)).1.
Proof.
  unfold walk_pages.
  pose proof (fetchUrlPages_stamps w url cacheDir) as Hstamps.
  destruct (fetchUrlPages w url cacheDir) as [w1 [pages walker_end]].
  cbn [snd fst] in Hstamps.
  pose proof (pages_loop_found body pages x w1) as Hfound.
  destruct (pages_loop body w1 pages) as [w2 [found [e|]]]; cbn [snd fst] in *;
    intros Hin; destruct (Hfound Hin) as (data & Hdata & Hx);
    destruct (Hstamps data Hdata) as (d & -> & Hd); eauto.
Qed.

(** X21.  Every product of a participant is stamped with the endpoint it
    was fetched from: its [endPoint] is one of the participant's endpoints
    of the products family, and its key is one of the twelve product
    keys. *)
Theorem produtos_provenance (w : world) (cacheDir : option string)
    (part : Participante) (p : Produto) :
  In p (produtos w cacheDir part).2.1 ->
  In (produto_key p) product_keys /\
  exists url,
    In url (_endpoints part) /\ contains products_infix url = true /\
    endPoint (produto_dados p) = Return (JStr url).
Proof.
  unfold produtos. generalize (_endpoints part) as endpoints. clear part.
  intros endpoints. revert w.
  induction endpoints as [|ep rest IH]; intros w; cbn [produtos_endpoints];
    [intros []|].
  destruct (contains products_infix ep) eqn:Hep; cbn [negb].
  - pose proof (walk_pages_found produtos_page w ep cacheDir p) as Hwalk.
    assert (Hhere : In p (walk_pages produtos_page w ep cacheDir).2.1 ->
                    In (produto_key p) product_keys /\
                    exists url, In url (ep :: rest) /\
                      contains products_infix url = true /\
                      endPoint (produto_dados p) = Return (JStr url)).
    { intros Hin. destruct (Hwalk Hin) as (d & Hd & Hp).
      destruct (produtos_page_products _ _ Hp) as [Hkey Hurl].
      split; [exact Hkey|]. exists ep.
      split; [left; reflexivity|]. split; [exact Hep|].
      rewrite Hurl. cbn. rewrite Hd. reflexivity. }
    destruct (walk_pages produtos_page w ep cacheDir) as [w1 [found [e|]]];
      cbn [snd fst] in *; [exact Hhere|].
    specialize (IH w1).
    destruct (produtos_endpoints w1 cacheDir rest) as [w2 [more r]].
    cbn [snd fst] in *. intros Hin. apply in_app_or in Hin as [Hin|Hin];
      [exact (Hhere Hin)|].
    destruct (IH Hin) as (Hkey & url & Hurl & Hrest).
    split; [exact Hkey|]. exists url. split; [right; exact Hurl|exact Hrest].
  - intros Hin. destruct (IH w Hin) as (Hkey & url & Hurl & Hrest).
    split; [exact Hkey|]. exists url. split; [right; exact Hurl|exact Hrest].
Qed.

(** X22.  Every agency of a participant is stamped with the endpoint it was
    fetched from, one of the participant's endpoints that end with the
    branches suffix. *)
Theorem agencias_provenance (w : world) (cacheDir : option string)
    (part : Participante) (a : Agencia) :
  In a (agencias w cacheDir part).2.1 ->
  exists url,
    In url (_endpoints part) /\ endswith url branches_suffix = true /\
    endPoint (agencia_dados a) = Return (JStr url).
Proof.
  unfold agencias. generalize (_endpoints part) as endpoints. clear part.
  induction endpoints as [|ep rest IH]; cbn [agencias_endpoints];
    [intros []|].
  destruct (endswith ep branches_suffix) eqn:Hep; cbn [negb].
  - intros Hin.
    destruct (walk_pages_found agencias_page w ep cacheDir a Hin)
      as (d & Hd & Ha).
    exists ep. split; [left; reflexivity|]. split; [exact Hep|].
    rewrite (agencias_page_agencies _ _ Ha). cbn. rewrite Hd. reflexivity.
  - intros Hin. destruct (IH Hin) as (url & Hurl & Hrest).
    exists url. split; [right; exact Hurl|exact Hrest].
Qed.

(** X23.  Every product that a products page yields has a category of the
    table: the category is never the fallback. *)
Theorem produtos_page_categoria (page : json) (p : Produto) :
  In p (produtos_page page).1 ->
  In (categoria p) categories /\ categoria p <> "Outros".
Proof.
  intros Hin. destruct (produtos_page_products _ _ Hin) as [Hkey _].
  unfold categoria. revert Hkey. generalize (produto_key p) as k. intros k.
  cbn [product_keys In].
  intros Hk.
  repeat (destruct Hk as [<-|Hk];
          [split; [cbn; tauto|vm_compute; discriminate]|]).
  destruct Hk.
Qed.

End ProvenanceFacts.

(** ** The price slots, the services and the packages *)

Section DetailFacts.
Context {R : Runtime}.

Lemma faixa_step_four_slots (ratePath : string) (f f' : Faixas) (entry : json) :
  four_slots f -> faixa_step ratePath f entry = Return f' -> four_slots f'.
Proof.
  intros [Ht Hc]. unfold faixa_step.
  destruct (subscript entry "interval") as [interval|e]; cbn [bind];
    [|discriminate].
  destruct (faixa_index interval) as [i|]; [|intros [= <-]; split; assumption].
  rewrite !optional_get. cbn [bind]. intros [= <-].
  split; cbn [taxa clientes]; rewrite length_insert; assumption.
Qed.

Lemma decode_faixas_four_slots (ratePath : string) (entries : list json) :
  forall f f', four_slots f -> decode_faixas ratePath f entries = Return f' ->
               four_slots f'.
Proof.
  induction entries as [|entry rest IH]; intros f f' Hf; cbn [decode_faixas].
  - intros [= <-]. exact Hf.
  - destruct (faixa_step ratePath f entry) as [f1|e] eqn:Hstep; cbn [bind];
      [|discriminate].
    apply IH. exact (faixa_step_four_slots _ _ _ _ Hf Hstep).
Qed.

Lemma no_faixas_four_slots : four_slots no_faixas.
Proof. split; reflexivity. Qed.

Lemma decode_prices_four_slots (dados : json) (f : Faixas) :
  decode_prices dados = Return f -> four_slots f.
Proof.
  unfold decode_prices. rewrite optional_get. cbn [bind].
  assert (Hdecode : (let* prices := subscript dados "prices" in
                     let* entries := py_iter prices in
                     decode_faixas "value" no_faixas entries) = Return f ->
                    four_slots f).
  { destruct (subscript dados "prices") as [prices|e]; cbn [bind];
      [|discriminate].
    destruct (py_iter prices) as [entries|e]; cbn [bind]; [|discriminate].
    apply decode_faixas_four_slots, no_faixas_four_slots. }
  destruct (optional dados "prices" TList) as [[| | | | | |]|]; try exact Hdecode.
  intros [= <-]. apply no_faixas_four_slots.
Qed.

(** X24.  A service, a package and a product that construct always have
    four rate slots and four customer slots, whatever the price entries
    are: the accessors [faixa1Taxa] to [faixa4Clientes] never run out of
    range. *)
Theorem four_slots_kept :
  (forall dados s, Servico_init dados = Return s ->
                   four_slots (servico_faixas s)) /\
  (forall dados p, Pacote_init dados = Return p ->
                   four_slots (pacote_faixas p)) /\
  (forall key data rate p, Produto_init key data rate = Return p ->
                           four_slots (produto_faixas p)).
Proof.
  split; [|split].
  - intros dados s. unfold Servico_init.
    destruct (DataObject_init dados); cbn [bind]; [|discriminate].
    destruct (decode_prices dados) as [f|e] eqn:Hf; cbn [bind]; [|discriminate].
    intros [= <-]. exact (decode_prices_four_slots _ _ Hf).
  - intros dados p. unfold Pacote_init.
    destruct (DataObject_init dados); cbn [bind]; [|discriminate].
    destruct (decode_prices dados) as [f|e] eqn:Hf; cbn [bind]; [|discriminate].
    intros [= <-]. exact (decode_prices_four_slots _ _ Hf).
  - intros key data rate p. unfold Produto_init.
    destruct (DataObject_init data); cbn [bind]; [|discriminate].
    destruct (is_none rate); [intros [= <-]; apply no_faixas_four_slots|].
    repeat (rewrite optional_get; cbn [bind]).
    destruct (py_in "applications" rate) as [[|]|e]; cbn [bind];
      [| |discriminate].
    + destruct (subscript rate "applications") as [apps|e]; cbn [bind];
        [|discriminate].
      destruct (py_iter apps) as [entries|e]; cbn [bind]; [|discriminate].
      destruct (decode_faixas "indexer.rate" no_faixas entries) as [f|e] eqn:Hf;
        cbn [bind]; [|discriminate].
      repeat (rewrite optional_get; cbn [bind]). intros [= <-].
      exact (decode_faixas_four_slots _ _ _ _ no_faixas_four_slots Hf).
    + repeat (rewrite optional_get; cbn [bind]). intros [= <-].
      apply no_faixas_four_slots.
Qed.

Lemma servicos_loop_app (good tail : list json) (ss : list Servico) :
  services_construct good ss ->
  servicos_loop (good ++ tail)
    = ((ss ++ (servicos_loop tail).1)%list, (servicos_loop tail).2).
Proof.
  induction 1 as [|service s good ss Hs _ IH]; cbn [servicos_loop app].
  - destruct (servicos_loop tail); reflexivity.
  - rewrite Hs, IH. reflexivity.
Qed.

Lemma servicos_loop_all (services : list json) (ss : list Servico) :
  services_construct services ss -> servicos_loop services = (ss, None).
Proof.
  intros H. rewrite <- (app_nil_r services), (servicos_loop_app _ [] _ H).
  cbn. rewrite app_nil_r. reflexivity.
Qed.

Lemma pacotes_loop_skip (before : list json) (junk : json) (after : list json) :
  is_dict junk = false ->
  pacotes_loop (before ++ junk :: after) = pacotes_loop (before ++ after).
Proof.
  intros Hjunk. induction before as [|b before IH]; cbn [pacotes_loop app].
  - rewrite Hjunk. reflexivity.
  - rewrite IH. reflexivity.
Qed.

(** X25.  The packages and the services treat an entry that is not a dict
    differently: such a bundle is skipped, so the packages are those of the
    list without it, while such a service ends the services with
    [InvalidDataException], after the services before it. *)
Theorem non_dict_bundle_skipped_service_raises (before : list json)
    (junk : json) (after : list json) (ss : list Servico) :
  is_dict junk = false ->
  services_construct before ss ->
  pacotes_loop (before ++ junk :: after) = pacotes_loop (before ++ after) /\
  servicos_loop (before ++ junk :: after) = (ss, Some InvalidDataException).
Proof.
  intros Hjunk Hbefore. split; [exact (pacotes_loop_skip _ _ _ Hjunk)|].
  rewrite (servicos_loop_app _ _ _ Hbefore). cbn [servicos_loop].
  unfold Servico_init, DataObject_init. rewrite Hjunk. cbn.
  rewrite app_nil_r. reflexivity.
Qed.

Lemma list_field_dict (d : list (string * json)) (k : string) (l : list json) :
  dict_get k d = Some (JList l) -> list_field (JDict d) k = Return (Some l).
Proof.
  intros H. unfold list_field, py_in, dict_has, subscript. rewrite H.
  reflexivity.
Qed.

(** X26.  The services of a product whose [fees] has the three lists are
    the priority services, then the other services, then the plain
    services, each list in its order. *)
Theorem servicos_order (p : Produto) (d fees : list (string * json))
    (priority other plain : list json) (s1 s2 s3 : list Servico) :
  produto_dados p = JDict d ->
  dict_get "fees" d = Some (JDict fees) ->
  dict_get "priorityServices" fees = Some (JList priority) ->
  dict_get "otherServices" fees = Some (JList other) ->
  dict_get "services" fees = Some (JList plain) ->
  services_construct priority s1 ->
  services_construct other s2 ->
  services_construct plain s3 ->
  servicos p = ((s1 ++ s2 ++ s3)%list, None).
Proof.
  intros Hd Hfees H1 H2 H3 Hs1 Hs2 Hs3. unfold servicos, dict_field.
  rewrite Hd. unfold py_in, dict_has, subscript. rewrite Hfees.
  cbn [bind is_dict fees_loop].
  rewrite (list_field_dict _ _ _ H1), (list_field_dict _ _ _ H2),
    (list_field_dict _ _ _ H3).
  rewrite (servicos_loop_all _ _ Hs1), (servicos_loop_all _ _ Hs2),
    (servicos_loop_all _ _ Hs3).
  rewrite app_nil_r. reflexivity.
Qed.

(** X27.  The packages of a product never raise [InvalidDataException]:
    the only errors are the [KeyError] and the [TypeError] of a price entry
    or of a product that is not a dict. *)
Theorem pacotes_errors (p : Produto) (e : exn) :
  (pacotes p).2 = Some e -> e = KeyError \/ e = TypeError.
Proof.
  unfold pacotes.
  destruct (list_field (produto_dados p) "serviceBundles") as [[bundles|]|e']
    eqn:Hfield; cbn [snd]; [| discriminate |].
  - induction bundles as [|b rest IH] in |- *; cbn [pacotes_loop];
      [discriminate|].
    destruct (is_dict b) eqn:Hb; [|exact IH].
    destruct (Pacote_init b) as [q|e'] eqn:Hq.
    + destruct (pacotes_loop rest) as [more r]. exact IH.
    + cbn [snd]. intros [= <-]. revert Hq. unfold Pacote_init, DataObject_init.
      rewrite Hb. cbn [bind]. unfold decode_prices.
      rewrite optional_get. cbn [bind].
      assert (Hdecode : forall entries f,
                decode_faixas "value" f entries = Raise e' ->
                e' = KeyError \/ e' = TypeError).
      { clear. induction entries as [|entry entries IHe]; intros f;
          cbn [decode_faixas]; [discriminate|].
        destruct (faixa_step "value" f entry) as [f1|e1] eqn:Hstep; cbn [bind].
        - apply IHe.
        - intros [= <-]. revert Hstep. unfold faixa_step.
          destruct entry as [| | | | | |items]; cbn; try (intros [= <-]; auto).
          destruct (dict_get "interval" items) as [interval|]; cbn;
            [|intros [= <-]; auto].
          destruct (faixa_index interval); [|discriminate].
          rewrite !optional_get. cbn. discriminate. }
      assert (Hrest : (let* prices := subscript b "prices" in
                       let* entries := py_iter prices in
                       decode_faixas "value" no_faixas entries) = Raise e' ->
                      e' = KeyError \/ e' = TypeError).
      { destruct b as [| | | | | |items]; try discriminate. cbn [subscript].
        destruct (dict_get "prices" items) as [prices|]; cbn [bind];
          [|intros [= <-]; auto].
        destruct prices; cbn [py_iter bind]; try (intros [= <-]; auto);
          apply Hdecode. }
      set (decoded := let* prices := subscript b "prices" in
                      let* entries := py_iter prices in
                      decode_faixas "value" no_faixas entries) in *.
      destruct (optional b "prices" TList) as [[| | | | | |]|]; cbn [bind];
        try discriminate;
        (destruct decoded as [f0|e1]; cbn [bind];
         [discriminate|intros [= <-]; apply Hrest; reflexivity]).
  - intros [= <-]. right. apply (list_field_raises _ _ _ Hfield).
Qed.

End DetailFacts.

(** ** The cache round trip, and examples of the walks *)

Section CacheRoundTripFacts.
Context {R : Runtime}.

(** X28.  The cache round trip: a document fetched into an empty cache
    entry is returned, and asking again at any later time of the same day
    returns the same document without another request. *)
Theorem fetchUrl_cache_round_trip (w : world) (url dir : string)
    (bytes : list ascii) (dn : node) (status : Z) (data : json) (t : Z) :
  fs w !! dir = Some dn ->
  is_directory dn = true ->
  encode_ascii url = Return bytes ->
  fs w !! cache_entry_path dir bytes = None ->
  network w url = Responds status (Some data) ->
  is_none data = false ->
  local_date t = local_date (now w) ->
  (fetchUrl w url (Some dir)).2 = Return data /\
  (fetchUrl (at_time (fetchUrl w url (Some dir)).1 t) url (Some dir)).2
    = Return data /\
  requested (fetchUrl (at_time (fetchUrl w url (Some dir)).1 t) url (Some dir)).1
    = requested (fetchUrl w url (Some dir)).1.
Proof.
  intros Hdir Hisdir Henc Hentry Hnet Hdata Ht.
  destruct (fetchUrl_again_same_day w url dir bytes dn status data t
              Hdir Hisdir Henc Hentry Hnet Hdata Ht) as [Hfirst Hsecond].
  split; [exact Hfirst|]. rewrite Hsecond. split; reflexivity.
Qed.

End CacheRoundTripFacts.

Section WalkExamples.
#[local] Existing Instance Example.runtime.

Lemma agencias_first_endpoint_only_witness :
  agencias (world_with cache_directory branches_network) (Some "cache")
           bank_participant
    = walk_pages agencias_page (world_with cache_directory branches_network)
                 branches_url (Some "cache").
Proof.
  apply (agencias_first_endpoint_only _ _ bank_participant [page1_url]
           branches_url
           ["https://b.example/open-banking/channels/v1/branches"]).
  - reflexivity.
  - constructor; [reflexivity|constructor].
  - reflexivity.
Defined.

Lemma walk_pages_first_page_only_witness :
  (walk_pages agencias_page (world_with cache_directory branches_network)
              branches_url (Some "cache")).2
    = (map (stamped (JStr branches_url))
           [branch "0001" "Centro"; branch "0002" "Sul"], None).
Proof.
  set (w := world_with cache_directory branches_network).
  set (w1 := (fetchUrlPages w branches_url (Some "cache")).1).
  set (next := fetchUrlPages w1 branches_url2 (Some "cache")).
  rewrite (walk_pages_first_page_only agencias_page w w1 next.1
             branches_url branches_url2 (Some "cache") (Some "cache")
             (JDict (dict_set "endPoint" (JStr branches_url)
                       (branches_payload [branch "0001" "Centro";
                                          branch "0002" "Sul"])))
             (map (stamped (JStr branches_url))
                  [branch "0001" "Centro"; branch "0002" "Sul"])
             next.2.1 next.2.2 eq_refl eq_refl eq_refl).
  reflexivity.
Defined.

Lemma agencias_page_until_failure_witness :
  agencias_page (JDict branches_page_missing)
    = (map (stamped (JStr branches_url)) [branch "0001" "Centro"],
       Some RequiredFieldException).
Proof.
  apply (agencias_page_until_failure branches_page_missing branches_brand
           (JStr branches_url) [company_one_branch] [company_no_branches]
           [[branch "0001" "Centro"]] (Some RequiredFieldException));
    try reflexivity.
  - constructor; [|constructor].
    eexists. split; [reflexivity|]. split; [reflexivity|].
    constructor; [reflexivity|constructor].
  - right. eexists _, _. split; [reflexivity|]. split; reflexivity.
Defined.

Lemma produtos_provenance_witness :
  exists p,
    In p (produtos (world_with cache_directory loans_network) (Some "cache")
                   bank_participant).2.1 /\
    In (produto_key p) product_keys /\
    exists url,
      In url (_endpoints bank_participant) /\
      contains products_infix url = true /\
      endPoint (produto_dados p) = Return (JStr url).
Proof.
  assert (Hfound : exists p ps,
            (produtos (world_with cache_directory loans_network) (Some "cache")
                      bank_participant).2.1 = p :: ps)
    by (eexists _, _; reflexivity).
  destruct Hfound as (p & ps & Hfound). exists p.
  assert (Hin : In p (produtos (world_with cache_directory loans_network)
                               (Some "cache") bank_participant).2.1)
    by (rewrite Hfound; left; reflexivity).
  split; [exact Hin|].
  exact (produtos_provenance _ _ _ p Hin).
Defined.

Lemma agencias_provenance_witness :
  exists a,
    In a (agencias (world_with cache_directory branches_network) (Some "cache")
                   bank_participant).2.1 /\
    exists url,
      In url (_endpoints bank_participant) /\
      endswith url branches_suffix = true /\
      endPoint (agencia_dados a) = Return (JStr url).
Proof.
  assert (Hfound : exists a more,
            (agencias (world_with cache_directory branches_network)
                      (Some "cache") bank_participant).2.1 = a :: more)
    by (eexists _, _; reflexivity).
  destruct Hfound as (a & more & Hfound). exists a.
  assert (Hin : In a (agencias (world_with cache_directory branches_network)
                               (Some "cache") bank_participant).2.1)
    by (rewrite Hfound; left; reflexivity).
  split; [exact Hin|].
  exact (agencias_provenance _ _ _ a Hin).
Defined.

Lemma produtos_page_categoria_witness :
  exists p,
    In p (produtos_page page_two_rates).1 /\
    In (categoria p) categories /\ categoria p <> "Outros".
Proof.
  assert (Hfound : exists p ps, (produtos_page page_two_rates).1 = p :: ps)
    by (eexists _, _; reflexivity).
  destruct Hfound as (p & ps & Hfound). exists p.
  assert (Hin : In p (produtos_page page_two_rates).1)
    by (rewrite Hfound; left; reflexivity).
  split; [exact Hin|].
  exact (produtos_page_categoria _ p Hin).
Defined.

Lemma four_slots_kept_witness :
  exists s, Servico_init (JDict saque) = Return s /\
            four_slots (servico_faixas s).
Proof.
  eexists. split; [reflexivity|].
  destruct four_slots_kept as [Hservico _].
  exact (Hservico (JDict saque) _ eq_refl).
Defined.

Lemma non_dict_bundle_skipped_service_raises_witness :
  pacotes_loop ([JDict saque] ++ JStr "tarifa" :: [extrato])
    = pacotes_loop ([JDict saque] ++ [extrato]) /\
  (servicos_loop ([JDict saque] ++ JStr "tarifa" :: [extrato])).2
    = Some InvalidDataException.
Proof.
  assert (Hs : exists s, Servico_init (JDict saque) = Return s)
    by (eexists; reflexivity).
  destruct Hs as [s Hs].
  destruct (non_dict_bundle_skipped_service_raises
              [JDict saque] (JStr "tarifa") [extrato] [s] eq_refl
              ltac:(constructor; [exact Hs|constructor]))
    as [Hbundles Hservices].
  split; [exact Hbundles|]. rewrite Hservices. reflexivity.
Defined.

Lemma servicos_order_witness :
  length (servicos (account_product (JDict account_with_fees))).1 = 2%nat /\
  (servicos (account_product (JDict account_with_fees))).2 = None.
Proof.
  assert (Hs1 : exists s, Servico_init (JDict saque) = Return s)
    by (eexists; reflexivity).
  assert (Hs3 : exists s, Servico_init extrato = Return s)
    by (eexists; reflexivity).
  destruct Hs1 as [s1 Hs1]. destruct Hs3 as [s3 Hs3].
  rewrite (servicos_order (account_product (JDict account_with_fees))
             account_with_fees account_fees [JDict saque] [] [extrato]
             [s1] [] [s3] eq_refl eq_refl eq_refl eq_refl eq_refl
             ltac:(constructor; [exact Hs1|constructor])
             ltac:(constructor)
             ltac:(constructor; [exact Hs3|constructor])).
  split; reflexivity.
Defined.

Lemma pacotes_errors_witness :
  (pacotes (account_product account_with_bundle)).2 = Some KeyError /\
  (KeyError = KeyError \/ KeyError = TypeError).
Proof.
  split; [reflexivity|].
  apply (pacotes_errors (account_product account_with_bundle) KeyError).
  reflexivity.
Defined.

Lemma fetchUrl_cache_round_trip_witness :
  (fetchUrl (world_with cache_directory bank_network) page1_url (Some "cache")).2
    = Return page1_root /\
  (fetchUrl (at_time (fetchUrl (world_with cache_directory bank_network)
                               page1_url (Some "cache")).1 (noon + 3600))
            page1_url (Some "cache")).2 = Return page1_root /\
  requested (fetchUrl (at_time (fetchUrl (world_with cache_directory bank_network)
                                         page1_url (Some "cache")).1 (noon + 3600))
                      page1_url (Some "cache")).1
    = requested (fetchUrl (world_with cache_directory bank_network)
                          page1_url (Some "cache")).1.
Proof.
  exact (fetchUrl_cache_round_trip
           (world_with cache_directory bank_network) page1_url "cache"
           page1_bytes (node_at (noon - 3600) Directory) 200 page1_root
           (noon + 3600)
           eq_refl eq_refl eq_refl eq_refl eq_refl eq_refl eq_refl).
Defined.

End WalkExamples.
